(** * PCF8523 real-time clock driver (pcf8523.py)

    A shallow embedding of the driver: the BCD codec, the range assertions,
    the register map and the methods of class [PCF8523], followed by the
    properties of the driver that its specification states.

    Python integers are unbounded, so they are [Z]; [//] and [%] are floor
    division and its remainder ([Z.div], [Z.modulo]); [&] and [|] are
    [Z.land] and [Z.lor].  A parameter that may be [None] is an [option Z].
    A failed [assert] raises [AssertionError] with the formatted message
    (assertions are taken as executed, as they are unless the interpreter
    runs with -O).  Arguments are integers or [None].

    [write_now] reads the host's clock and is left out; it is
    [write_datetime] of whatever [datetime.now()] returns. *)

From stdpp Require Import gmap strings list pretty.
From Stdlib Require Import ZArith Lia.

Local Open Scope Z_scope.

(** ** Outcomes of a Python call *)

Inductive exn : Type :=
  | AssertionError (msg : string).

Inductive outcome (A : Type) : Type :=
  | Return (a : A)
  | Raise (e : exn).
Arguments Return {A} a.
Arguments Raise {A} e.

#[global] Instance outcome_ret : MRet outcome := fun A a => Return a.
#[global] Instance outcome_bind : MBind outcome := fun A B f m =>
  match m with
  | Return a => f a
  | Raise e => Raise e
  end.

(** [assert cond, msg] *)
Definition py_assert (cond : bool) (msg : string) : outcome unit :=
  if cond then Return tt else Raise (AssertionError msg).

(** ['... %s' % v] for an integer [v], the text before the directive given
    as [prefix] (the directive is the last thing in every message here). *)
Definition percent_s (prefix : string) (v : Z) : string := prefix +:+ pretty v.

(** How an argument reaches a parameter that has a default value. *)
Inductive arg (A : Type) : Type :=
  | Omitted
  | Passed (a : A).
Arguments Omitted {A}.
Arguments Passed {A} a.

Definition or_default {A : Type} (default : A) (a : arg A) : A :=
  match a with
  | Omitted => default
  | Passed v => v
  end.

(** ** Registers and magic bytes *)

Module Reg.
Definition CONTROL_1 : Z := 0x00.
Definition CONTROL_2 : Z := 0x01.
Definition CONTROL_3 : Z := 0x03.
Definition SECONDS : Z := 0x03.
Definition MINUTES : Z := 0x04.
Definition HOURS : Z := 0x05.
Definition DAYS : Z := 0x06.
Definition WEEKDAY : Z := 0x07.
Definition MONTH : Z := 0x08.
Definition YEAR : Z := 0x09.
Definition ALARM_MINUTES : Z := 0x0A.
Definition ALARM_HOURS : Z := 0x0B.
Definition ALARM_DAY : Z := 0x0C.
Definition ALARM_WEEKDAY : Z := 0x0D.
Definition RESERVED : Z := 0x0E.
Definition CLK_OUT : Z := 0x0F.
Definition TIMER : Z := 0x0F.
End Reg.

Definition ALARM_IGNORE : Z := 0x80.
Definition RTC_RESET : Z := 0x58.

Definition CLOCK_CLK_OUT_FREQ_32_DOT_768KHZ : Z := 0x80.
Definition CLOCK_CLK_OUT_FREQ_1_DOT_024KHZ : Z := 0x81.
Definition CLOCK_CLK_OUT_FREQ_32_KHZ : Z := 0x82.
Definition CLOCK_CLK_OUT_FREQ_1_HZ : Z := 0x83.
Definition CLOCK_CLK_HIGH_IMPEDANCE : Z := 0x0.

Definition IGNORE_LAST_BIT : Z := 0x7F.

(** ** Codec *)

Definition bcd_to_int (bcd : Z) : Z := bcd `div` 16 * 10 + bcd `mod` 16.

Definition int_to_bcd (n : Z) : Z := n `div` 10 * 16 + n `mod` 10.

(** ** Range assertions *)

Definition assert_clock_inputs
    (seconds minutes hours days month year weekday : option Z) : outcome unit :=
  match seconds with
  | Some seconds =>
      py_assert ((0 <=? seconds) && (seconds <=? 59))
                (percent_s "invalid seconds " seconds)
  | None => mret tt
  end;;
  match minutes with
  | Some minutes =>
      py_assert ((0 <=? minutes) && (minutes <=? 59))
                (percent_s "invalid minutes " minutes)
  | None => mret tt
  end;;
  match hours with
  | Some hours =>
      py_assert ((0 <=? hours) && (hours <=? 23))
                (percent_s "invalid hours " hours)
  | None => mret tt
  end;;
  match days with
  | Some days =>
      py_assert ((1 <=? days) && (days <=? 31))
                (percent_s "invalid days " days)
  | None => mret tt
  end;;
  match month with
  | Some month =>
      py_assert ((1 <=? month) && (month <=? 12))
                (percent_s "invalid month " month)
  | None => mret tt
  end;;
  match year with
  | Some year =>
      py_assert ((0 <=? year) && (year <=? 99))
                (percent_s "invalid year " year)
  | None => mret tt
  end;;
  match weekday with
  | Some weekday =>
      py_assert ((1 <=? weekday) && (weekday <=? 7))
                (percent_s "invalid weekday " weekday)
  | None => mret tt
  end.

(** ** The bus

    [smbus2.SMBus] is outside the driver.  It is modelled as the register
    cells of the devices on the bus, indexed by device address and register
    address, together with the transfers issued so far (oldest first).  A
    cell holds exactly what was last written to it, a cell never written
    reads as 0, and a transfer always completes. *)

Inductive transfer : Type :=
  | ReadByte (addr register : Z)
  | WriteByte (addr register data : Z).

Record SMBus : Type := mkSMBus {
  cells : gmap (Z * Z) Z;
  wire : list transfer
}.

Definition read_byte_data (i2c_addr register : Z) (b : SMBus) : Z * SMBus :=
  (default 0 (cells b !! (i2c_addr, register)),
   mkSMBus (cells b) (wire b ++ [ReadByte i2c_addr register])).

Definition write_byte_data (i2c_addr register data : Z) (b : SMBus) : SMBus :=
  mkSMBus (<[(i2c_addr, register) := data]> (cells b))
          (wire b ++ [WriteByte i2c_addr register data]).

(** ** class PCF8523 *)

Record PCF8523 : Type := mkPCF8523 {
  bus : SMBus;
  addr : Z
}.

(** A method: it runs on [self], returns or raises, and leaves [self] (with
    whatever bus traffic happened before a raise). *)
Definition method (A : Type) : Type := PCF8523 → outcome A * PCF8523.

#[global] Instance method_ret : MRet method := fun A a self => (Return a, self).
#[global] Instance method_bind : MBind method := fun A B f m self =>
  match m self with
  | (Return a, self') => f a self'
  | (Raise e, self') => (Raise e, self')
  end.

(** A call of a function that does not touch [self]. *)
Definition call {A : Type} (o : outcome A) : method A := fun self => (o, self).

(** The value a register of this device holds (no bus traffic). *)
Definition peek (self : PCF8523) (register : Z) : Z :=
  default 0 (cells (bus self) !! (addr self, register)).

Definition write (register data : Z) : method unit := fun self =>
  (Return tt, mkPCF8523 (write_byte_data (addr self) register data (bus self)) (addr self)).

Definition read (register : Z) : method Z := fun self =>
  let '(v, b) := read_byte_data (addr self) register (bus self) in
  (Return v, mkPCF8523 b (addr self)).

Definition reset : method unit := write Reg.CONTROL_1 RTC_RESET.

Definition enable_alarm_interrupt : method unit :=
  alarm_state ← read Reg.CONTROL_1;
  write Reg.CONTROL_1 (Z.lor alarm_state 0x02).

Definition disable_alarm_interrupt : method unit :=
  alarm_state ← read Reg.CONTROL_1;
  write Reg.CONTROL_1 (Z.land alarm_state 0xfd).

(** [bool(x)] of an integer *)
Definition py_bool (x : Z) : bool := negb (x =? 0).

Definition is_alarm_interrupt_enabled : method bool :=
  v ← read Reg.CONTROL_1; mret (py_bool (Z.land v 0x02)).

Definition is_alarm_on : method bool :=
  v ← read Reg.CONTROL_2; mret (py_bool (Z.land v 0x08)).

Definition turn_alarm_off : method unit :=
  alarm_state ← read Reg.CONTROL_2;
  write Reg.CONTROL_2 (Z.land alarm_state 0xf7).

(** [for x in xs: body] *)
Fixpoint for_in {A : Type} (xs : list A) (body : A → method unit) : method unit :=
  match xs with
  | [] => mret tt
  | x :: xs' => body x;; for_in xs' body
  end.

Definition clear_alarm : method unit :=
  write Reg.CONTROL_2 0x00;;
  for_in [Reg.ALARM_MINUTES; Reg.ALARM_HOURS; Reg.ALARM_DAY; Reg.ALARM_WEEKDAY]
         (fun reg => write reg ALARM_IGNORE).

Definition set_alarm (min : arg (option Z)) (hour day weekday : arg (option Z))
    : method unit :=
  let min := or_default (Some 1) min in
  let hour := or_default None hour in
  let day := or_default None day in
  let weekday := or_default None weekday in
  call (assert_clock_inputs None min hour day None None weekday);;
  let alarm_minute := ALARM_IGNORE in
  let alarm_hour := ALARM_IGNORE in
  let alarm_day := ALARM_IGNORE in
  let alarm_weekday := ALARM_IGNORE in
  let alarm_minute :=
    match min with
    | Some min => Z.land (int_to_bcd min) IGNORE_LAST_BIT
    | None => alarm_minute
    end in
  let alarm_hour :=
    match hour with
    | Some hour => Z.land (int_to_bcd hour) IGNORE_LAST_BIT
    | None => alarm_hour
    end in
  let alarm_day :=
    match day with
    | Some day => Z.land (int_to_bcd day) IGNORE_LAST_BIT
    | None => alarm_day
    end in
  let alarm_weekday :=
    match weekday with
    | Some weekday => Z.land (int_to_bcd weekday) IGNORE_LAST_BIT
    | None => alarm_weekday
    end in
  write Reg.ALARM_MINUTES alarm_minute;;
  write Reg.ALARM_HOURS alarm_hour;;
  write Reg.ALARM_DAY alarm_day;;
  write Reg.ALARM_WEEKDAY alarm_weekday;;
  enable_alarm_interrupt.

Definition read_seconds : method Z :=
  v ← read Reg.SECONDS; mret (bcd_to_int (Z.land v IGNORE_LAST_BIT)).

Definition read_minutes : method Z :=
  v ← read Reg.MINUTES; mret (bcd_to_int (Z.land v IGNORE_LAST_BIT)).

Definition read_hours : method Z :=
  v ← read Reg.HOURS; mret (bcd_to_int (Z.land v 0x3F)).

Definition read_day : method Z :=
  v ← read Reg.WEEKDAY; mret (bcd_to_int (Z.land v 0x07)).

Definition read_date : method Z :=
  v ← read Reg.DAYS; mret (bcd_to_int (Z.land v 0x3F)).

Definition read_month : method Z :=
  v ← read Reg.MONTH; mret (bcd_to_int (Z.land v 0x1F)).

Definition read_year : method Z :=
  v ← read Reg.YEAR; mret (bcd_to_int v).

(** Returns (year, month, date, day, hours, minutes, seconds); the elements
    of the tuple are evaluated left to right. *)
Definition read_all : method (Z * Z * Z * Z * Z * Z * Z) :=
  year ← read_year;
  month ← read_month;
  date ← read_date;
  day ← read_day;
  hours ← read_hours;
  minutes ← read_minutes;
  seconds ← read_seconds;
  mret (year, month, date, day, hours, minutes, seconds).

(** Every parameter defaults to [None], so an omitted argument and [None]
    are the same [None] here. *)
Definition write_all (seconds minutes hours date month year iso_week_day : option Z)
    : method unit :=
  call (assert_clock_inputs seconds minutes hours date month year iso_week_day);;
  match seconds with
  | Some seconds => write Reg.SECONDS (int_to_bcd seconds)
  | None => mret tt
  end;;
  match minutes with
  | Some minutes => write Reg.MINUTES (int_to_bcd minutes)
  | None => mret tt
  end;;
  match hours with
  | Some hours => write Reg.HOURS (int_to_bcd hours)
  | None => mret tt
  end;;
  match date with
  | Some date => write Reg.DAYS (int_to_bcd date)
  | None => mret tt
  end;;
  match month with
  | Some month => write Reg.MONTH (int_to_bcd month)
  | None => mret tt
  end;;
  match year with
  | Some year => write Reg.YEAR (int_to_bcd year)
  | None => mret tt
  end;;
  match iso_week_day with
  | Some iso_week_day => write Reg.WEEKDAY (int_to_bcd iso_week_day)
  | None => mret tt
  end.

Definition set_clk_out_frequency (frequency : arg Z) : method unit :=
  let frequency := or_default CLOCK_CLK_OUT_FREQ_1_HZ frequency in
  write Reg.CLK_OUT frequency.

(** ** Formatting and [datetime]

    [str.format] and [datetime] belong to the Python library.  What the
    driver uses of them is modelled here: the directive [{:02d}], the
    attributes of a [datetime], its constructor's range checks and
    [isoweekday]. *)

(** ['{:02d}'.format(n)]: decimal, padded with zeros to two characters, a
    minus sign counting as one of them. *)
Definition format_02d (n : Z) : string :=
  if (0 <=? n) && (n <? 10) then "0" +:+ pretty n else pretty n.

Inductive tzinfo_obj : Type :=
  | TzInfo (name : string).

Record datetime : Type := mkDatetime {
  dt_year : Z;
  dt_month : Z;
  dt_day : Z;
  dt_hour : Z;
  dt_minute : Z;
  dt_second : Z;
  dt_microsecond : Z;
  dt_tzinfo : option tzinfo_obj
}.

Definition is_leap (year : Z) : bool :=
  (year `mod` 4 =? 0) && (negb (year `mod` 100 =? 0) || (year `mod` 400 =? 0)).

Definition DAYS_IN_MONTH : list Z :=
  [-1; 31; 28; 31; 30; 31; 30; 31; 31; 30; 31; 30; 31].

Definition DAYS_BEFORE_MONTH : list Z :=
  [-1; 0; 31; 59; 90; 120; 151; 181; 212; 243; 273; 304; 334].

Definition days_in_month (year month : Z) : Z :=
  if (month =? 2) && is_leap year then 29
  else default 0 (DAYS_IN_MONTH !! Z.to_nat month).

Definition days_before_year (year : Z) : Z :=
  let y := year - 1 in
  y * 365 + y `div` 4 - y `div` 100 + y `div` 400.

Definition days_before_month (year month : Z) : Z :=
  default 0 (DAYS_BEFORE_MONTH !! Z.to_nat month)
  + (if (2 <? month) && is_leap year then 1 else 0).

Definition ymd2ord (year month day : Z) : Z :=
  days_before_year year + days_before_month year month + day.

Definition toordinal (dt : datetime) : Z :=
  ymd2ord (dt_year dt) (dt_month dt) (dt_day dt).

(** [self.toordinal() % 7 or 7] *)
Definition isoweekday (dt : datetime) : Z :=
  let r := toordinal dt `mod` 7 in
  if r =? 0 then 7 else r.

(** What [datetime(...)] gives: the object, or [ValueError] when a field is
    out of range (the message differs between interpreter versions and is
    not kept). *)
Inductive constructed : Type :=
  | Built (dt : datetime)
  | ValueError.

Definition datetime_new (year month day hour minute second microsecond : Z)
    (tzinfo : option tzinfo_obj) : constructed :=
  if (1 <=? year) && (year <=? 9999)
     && (1 <=? month) && (month <=? 12)
     && (1 <=? day) && (day <=? days_in_month year month)
     && (0 <=? hour) && (hour <=? 23)
     && (0 <=? minute) && (minute <=? 59)
     && (0 <=? second) && (second <=? 59)
     && (0 <=? microsecond) && (microsecond <=? 999999)
  then Built (mkDatetime year month day hour minute second microsecond tzinfo)
  else ValueError.

(** ** class PCF8523, the methods that format and convert *)

(** The arguments of [format] are evaluated left to right: year, month,
    date, hours, minutes, seconds. *)
Definition read_str : method string :=
  year ← read_year;
  month ← read_month;
  date ← read_date;
  hours ← read_hours;
  minutes ← read_minutes;
  seconds ← read_seconds;
  mret (format_02d year +:+ "-" +:+ format_02d month +:+ "-" +:+ format_02d date
        +:+ " " +:+ format_02d hours +:+ ":" +:+ format_02d minutes
        +:+ ":" +:+ format_02d seconds).

(** A [ValueError] of the constructor leaves [read_datetime] as it is
    raised; it is the [ValueError] of the result. *)
Definition read_datetime (century : arg Z) (tzinfo : arg (option tzinfo_obj))
    : method constructed :=
  let century := or_default 21 century in
  let tzinfo := or_default None tzinfo in
  year ← read_year;
  month ← read_month;
  date ← read_date;
  hours ← read_hours;
  minutes ← read_minutes;
  seconds ← read_seconds;
  mret (datetime_new ((century - 1) * 100 + year) month date hours minutes
                     seconds 0 tzinfo).

Definition write_datetime (dt : datetime) : method unit :=
  write_all (Some (dt_second dt)) (Some (dt_minute dt)) (Some (dt_hour dt))
            (Some (dt_day dt)) (Some (dt_month dt)) (Some (dt_year dt `mod` 100))
            (Some (isoweekday dt)).

(** ** Vocabulary of the statements *)

(** A clock field as [assert_clock_inputs] sees it: the name used in the
    message, the documented domain and the value supplied, if any. *)
Record field : Type := mkField {
  fname : string;
  lo : Z;
  hi : Z;
  supplied : option Z
}.

(** The seven fields in the order [assert_clock_inputs] asserts them, each
    with the name its message uses and the domain its assertion tests. *)
Definition clock_fields (seconds minutes hours days month year weekday : option Z)
    : list field :=
  [ mkField "seconds" 0 59 seconds;
    mkField "minutes" 0 59 minutes;
    mkField "hours" 0 23 hours;
    mkField "days" 1 31 days;
    mkField "month" 1 12 month;
    mkField "year" 0 99 year;
    mkField "weekday" 1 7 weekday ].

(** A field that is left out, or supplied within its domain. *)
Definition in_domain (f : field) : Prop :=
  ∀ x, supplied f = Some x → lo f <= x <= hi f.

(** A field supplied as [x], outside its domain. *)
Definition offends (f : field) (x : Z) : Prop :=
  supplied f = Some x ∧ ¬ (lo f <= x <= hi f).

(** ['invalid <field> %s' % x] *)
Definition invalid_message (f : field) (x : Z) : string :=
  percent_s ("invalid " +:+ fname f +:+ " ") x.

(** One [if ... is not None: assert ...] of [assert_clock_inputs], and the
    run of them over a list of fields; [assert_clock_inputs_checks] below
    shows that [assert_clock_inputs] is this run over [clock_fields]. *)
Definition check (f : field) : outcome unit :=
  match supplied f with
  | Some x => py_assert ((lo f <=? x) && (x <=? hi f)) (invalid_message f x)
  | None => mret tt
  end.

Fixpoint checks (fs : list field) : outcome unit :=
  match fs with
  | [] => mret tt
  | f :: fs' => check f;; checks fs'
  end.

(** The bus transfers that [write_all] issues for a supplied value. *)
Definition field_write (i2c_addr register : Z) (v : option Z) : list transfer :=
  match v with
  | Some x => [WriteByte i2c_addr register (int_to_bcd x)]
  | None => []
  end.

(** A driver at the default address 0x68 on a bus nothing was written to. *)
Definition fresh_device : PCF8523 := mkPCF8523 (mkSMBus ∅ []) 0x68.

(** What an alarm register receives for a field of the alarm. *)
Definition alarm_byte (v : option Z) : Z :=
  match v with
  | Some x => Z.land (int_to_bcd x) IGNORE_LAST_BIT
  | None => ALARM_IGNORE
  end.

(** The device after a [set_alarm] whose assertions passed. *)
Definition alarm_programmed (min hour day weekday : option Z) (self : PCF8523)
    : PCF8523 :=
  mkPCF8523
    (mkSMBus
       (<[(addr self, Reg.CONTROL_1) := Z.lor (peek self Reg.CONTROL_1) 0x02]>
          (<[(addr self, Reg.ALARM_WEEKDAY) := alarm_byte weekday]>
             (<[(addr self, Reg.ALARM_DAY) := alarm_byte day]>
                (<[(addr self, Reg.ALARM_HOURS) := alarm_byte hour]>
                   (<[(addr self, Reg.ALARM_MINUTES) := alarm_byte min]>
                      (cells (bus self)))))))
       (wire (bus self)
        ++ [WriteByte (addr self) Reg.ALARM_MINUTES (alarm_byte min);
            WriteByte (addr self) Reg.ALARM_HOURS (alarm_byte hour);
            WriteByte (addr self) Reg.ALARM_DAY (alarm_byte day);
            WriteByte (addr self) Reg.ALARM_WEEKDAY (alarm_byte weekday);
            ReadByte (addr self) Reg.CONTROL_1;
            WriteByte (addr self) Reg.CONTROL_1
                      (Z.lor (peek self Reg.CONTROL_1) 0x02)]))
    (addr self).

(** A byte made of two decimal digits. *)
Definition is_bcd_byte (b : Z) : Prop :=
  0 <= b <= 0xFF ∧ b `div` 16 <= 9 ∧ b `mod` 16 <= 9.

(** A call of [int_to_bcd]: the body is one arithmetic expression whose
    divisors are non-zero constants, with no [assert] and no [raise]. *)
Definition int_to_bcd_call (n : Z) : outcome Z := mret (int_to_bcd n).

(** The five clock-out codes the source names. *)
Definition documented_frequencies : list Z :=
  [CLOCK_CLK_OUT_FREQ_32_DOT_768KHZ; CLOCK_CLK_OUT_FREQ_1_DOT_024KHZ;
   CLOCK_CLK_OUT_FREQ_32_KHZ; CLOCK_CLK_OUT_FREQ_1_HZ; CLOCK_CLK_HIGH_IMPEDANCE].

(** The accessor [m] of [register] returns the decoding of the register's
    byte under [mask]; the value lies in [0, top]; and when the register
    holds the encoding of a value of the domain [lo, hi], that value comes
    back. *)
Definition decodes (m : method Z) (self : PCF8523) (register mask top lo hi : Z)
    : Prop :=
  ∃ v,
    (m self).1 = Return v
    ∧ v = bcd_to_int (Z.land (peek self register) mask)
    ∧ 0 <= v <= top
    ∧ (∀ n, lo <= n <= hi → peek self register = int_to_bcd n → v = n ∧ lo <= v <= hi).

(** The seven accessors, each with its register, its mask (the year is read
    unmasked; on a byte that is the mask 0xFF), the largest value it can
    return and the field's documented domain. *)
Definition time_accessors_decode (self : PCF8523) : Prop :=
  decodes read_seconds self Reg.SECONDS 0x7F 85 0 59
  ∧ decodes read_minutes self Reg.MINUTES 0x7F 85 0 59
  ∧ decodes read_hours self Reg.HOURS 0x3F 45 0 23
  ∧ decodes read_date self Reg.DAYS 0x3F 45 1 31
  ∧ decodes read_month self Reg.MONTH 0x1F 25 1 12
  ∧ decodes read_day self Reg.WEEKDAY 0x07 7 1 7
  ∧ decodes read_year self Reg.YEAR 0xFF 165 0 99.

(** A device whose seconds register holds 0x7F. *)
Definition seconds_0x7F : PCF8523 :=
  mkPCF8523 (mkSMBus {[ (0x68, Reg.SECONDS) := 0x7F ]} []) 0x68.

(** What a time register holds after [write_all]: the encoding of the
    value supplied for its field, or what it held. *)
Definition updated (old : Z) (v : option Z) : Z :=
  match v with
  | Some x => int_to_bcd x
  | None => old
  end.

(** The seven time registers. *)
Definition time_registers : list Z :=
  [Reg.SECONDS; Reg.MINUTES; Reg.HOURS; Reg.DAYS; Reg.WEEKDAY; Reg.MONTH; Reg.YEAR].

(** The four alarm registers. *)
Definition alarm_registers : list Z :=
  [Reg.ALARM_MINUTES; Reg.ALARM_HOURS; Reg.ALARM_DAY; Reg.ALARM_WEEKDAY].

(** Every register of the device holds a byte. *)
Definition holds_bytes (self : PCF8523) : Prop :=
  ∀ r, 0 <= peek self r <= 0xFF.

(** The cells after the write, if any, that [write_all] issues for one
    field. *)
Definition put_field (i2c_addr register : Z) (v : option Z) (c : gmap (Z * Z) Z)
    : gmap (Z * Z) Z :=
  match v with
  | Some x => <[(i2c_addr, register) := int_to_bcd x]> c
  | None => c
  end.

(** How an alarm register holds a field of the alarm: a supplied value as
    its encoding, with bit 7 clear, so that the low seven bits decode to the
    value; a field left out as the sentinel, with bit 7 set. *)
Definition alarm_field_stored (reg : Z) (v : option Z) : Prop :=
  match v with
  | Some x =>
      reg = int_to_bcd x ∧ Z.testbit reg 7 = false
      ∧ bcd_to_int (Z.land reg IGNORE_LAST_BIT) = x
  | None => reg = ALARM_IGNORE ∧ Z.testbit reg 7 = true
  end.

(** ** Codec properties *)

(** Linear arithmetic over [div] and [mod] by constants. *)
Ltac divmod := Z.div_mod_to_equations; lia.

Lemma bcd_to_int_int_to_bcd (n : Z) : bcd_to_int (int_to_bcd n) = n.
Proof.
  unfold bcd_to_int, int_to_bcd.
  assert (H : 0 <= n `mod` 10 < 10) by (apply Z.mod_pos_bound; lia).
  replace (n `div` 10 * 16 + n `mod` 10) with (n `mod` 10 + n `div` 10 * 16) by lia.
  rewrite Z.div_add, Z.mod_add by lia.
  rewrite Z.div_small, Z.mod_small by lia.
  pose proof (Z.div_mod n 10). lia.
Qed.

(** C2: for every integer n with 0 <= n <= 99, decoding the BCD encoding of n
    returns n: bcd_to_int (int_to_bcd n) = n. *)
Theorem bcd_round_trip (n : Z) : 0 <= n <= 99 → bcd_to_int (int_to_bcd n) = n.
Proof. intros _. apply bcd_to_int_int_to_bcd. Qed.

Lemma bcd_round_trip_witness : 0 <= 59 <= 99 ∧ bcd_to_int (int_to_bcd 59) = 59.
Proof. split; [lia | apply (bcd_round_trip 59); lia]. Defined.

Lemma int_to_bcd_le (n hi : Z) : 0 <= n <= hi → 0 <= int_to_bcd n <= int_to_bcd hi.
Proof. unfold int_to_bcd. intros H. divmod. Qed.

Lemma land_low_bits (a k : Z) : 0 <= k → 0 <= a < 2 ^ k → Z.land a (Z.ones k) = a.
Proof. intros Hk Ha. rewrite Z.land_ones by done. by apply Z.mod_small. Qed.

Lemma land_low_bits_range (a k : Z) : 0 <= k → 0 <= Z.land a (Z.ones k) < 2 ^ k.
Proof. intros Hk. rewrite Z.land_ones by done. apply Z.mod_pos_bound. lia. Qed.

(** A field value in [0, hi] whose encoding fits under the mask of [k] bits
    comes back from mask-then-decode. *)
Lemma mask_decode_encode (n hi k mask : Z) :
  mask = Z.ones k → 0 <= k → int_to_bcd hi < 2 ^ k → 0 <= n <= hi →
  bcd_to_int (Z.land (int_to_bcd n) mask) = n.
Proof.
  intros -> Hk Hhi Hn. pose proof (int_to_bcd_le n hi Hn).
  rewrite land_low_bits by lia. apply bcd_to_int_int_to_bcd.
Qed.

(** ** The bus and the primitive transfers *)

Lemma peek_write_eq (self : PCF8523) (r d : Z) :
  peek (write r d self).2 r = d.
Proof. unfold peek, write, write_byte_data; simpl. by rewrite lookup_insert_eq. Qed.

Lemma peek_write_ne (self : PCF8523) (r r' d : Z) :
  r ≠ r' → peek (write r d self).2 r' = peek self r'.
Proof.
  intros Hne. unfold peek, write, write_byte_data; simpl.
  rewrite lookup_insert_ne; [done | congruence].
Qed.

Lemma addr_write (self : PCF8523) (r d : Z) : addr (write r d self).2 = addr self.
Proof. done. Qed.

Lemma peek_read (self : PCF8523) (r r' : Z) : peek (read r self).2 r' = peek self r'.
Proof. done. Qed.

Lemma read_value (self : PCF8523) (r : Z) : (read r self).1 = Return (peek self r).
Proof. done. Qed.

(** Unfolds the methods down to the cells and the wire. *)
Ltac run :=
  unfold write_all, read_all, set_alarm, clear_alarm, set_clk_out_frequency,
    enable_alarm_interrupt, disable_alarm_interrupt, turn_alarm_off, reset,
    read_seconds, read_minutes, read_hours, read_day, read_date, read_month,
    read_year, for_in, call, or_default;
  unfold mbind, method_bind, mret, method_ret, write, read, write_byte_data,
    read_byte_data, peek;
  cbn [fst snd bus addr cells wire].

(** Looks a register up through the inserts made by earlier writes. *)
Ltac lookup_cells :=
  repeat (rewrite lookup_insert_eq
          || (rewrite lookup_insert_ne by (unfold Reg.CONTROL_1, Reg.CONTROL_2,
                Reg.SECONDS, Reg.MINUTES, Reg.HOURS, Reg.DAYS, Reg.WEEKDAY,
                Reg.MONTH, Reg.YEAR, Reg.ALARM_MINUTES, Reg.ALARM_HOURS,
                Reg.ALARM_DAY, Reg.ALARM_WEEKDAY, Reg.CLK_OUT; congruence)));
  cbn [default from_option id].

(** ** Time registers: write then read *)

Lemma write_all_read_all (seconds minutes hours date month year iso_week_day : Z)
    (self : PCF8523) :
  0 <= seconds <= 59 → 0 <= minutes <= 59 → 0 <= hours <= 23 →
  1 <= date <= 31 → 1 <= month <= 12 → 0 <= year <= 99 →
  1 <= iso_week_day <= 7 →
  ∃ self',
    write_all (Some seconds) (Some minutes) (Some hours) (Some date)
              (Some month) (Some year) (Some iso_week_day) self
      = (Return tt, self')
    ∧ (read_all self').1
      = Return (year, month, date, iso_week_day, hours, minutes, seconds).
Proof.
  intros Hs Hm Hh Hd Hmo Hy Hw.
  eexists. split.
  - run. unfold assert_clock_inputs, py_assert, mbind, outcome_bind, mret, outcome_ret.
    repeat match goal with
    | |- context [(?a <=? ?b) && (?c <=? ?d)] =>
        replace ((a <=? b) && (c <=? d)) with true
          by (symmetry; apply andb_true_iff; split; apply Z.leb_le; lia)
    end.
    reflexivity.
  - run. lookup_cells.
    rewrite (mask_decode_encode seconds 59 7) by (done || lia).
    rewrite (mask_decode_encode minutes 59 7) by (done || lia).
    rewrite (mask_decode_encode hours 23 6) by (done || lia).
    rewrite (mask_decode_encode date 31 6) by (done || lia).
    rewrite (mask_decode_encode month 12 5) by (done || lia).
    rewrite (mask_decode_encode iso_week_day 7 3) by (done || lia).
    by rewrite bcd_to_int_int_to_bcd.
Qed.

(** C1: writing seconds=45, minutes=30, hours=13, day_of_month=15, month=6,
    year=23, weekday=4 with write_all succeeds on every device state, and
    read_all on the resulting state returns the same seven values, in its
    order (year, month, date, day, hours, minutes, seconds). *)
Theorem write_all_read_all_45_30_13_15_6_23_4 (self : PCF8523) :
  ∃ self',
    write_all (Some 45) (Some 30) (Some 13) (Some 15) (Some 6) (Some 23) (Some 4) self
      = (Return tt, self')
    ∧ (read_all self').1 = Return (23, 6, 15, 4, 13, 30, 45).
Proof. apply write_all_read_all; lia. Qed.

(** ** Range assertions, field by field *)

Lemma outcome_bind_ret_unit (o : outcome unit) : (o;; mret tt) = o.
Proof. by destruct o as [[]|e]. Qed.

Lemma assert_clock_inputs_checks (seconds minutes hours days month year weekday : option Z) :
  assert_clock_inputs seconds minutes hours days month year weekday
  = checks (clock_fields seconds minutes hours days month year weekday).
Proof.
  unfold clock_fields, checks. rewrite outcome_bind_ret_unit. reflexivity.
Qed.

Lemma check_spec (f : field) :
  (check f = Return tt ∧ in_domain f)
  ∨ (∃ x, offends f x ∧ check f = Raise (AssertionError (invalid_message f x))).
Proof.
  unfold check, in_domain, offends.
  destruct (supplied f) as [x|]; [|left; split; [done | intros ? [=]]].
  unfold py_assert.
  destruct ((lo f <=? x) && (x <=? hi f)) eqn:Hc.
  - left. split; [done|]. intros ? [= <-].
    apply andb_true_iff in Hc as [?%Z.leb_le ?%Z.leb_le]. lia.
  - right. exists x. split; [|done]. split; [done|].
    apply andb_false_iff in Hc as [?%Z.leb_gt | ?%Z.leb_gt]; lia.
Qed.

(** The assertions run in order and stop at the first field out of its
    domain. *)
Lemma checks_spec (fs : list field) :
  (checks fs = Return tt ∧ Forall in_domain fs)
  ∨ (∃ f x, f ∈ fs ∧ offends f x
       ∧ checks fs = Raise (AssertionError (invalid_message f x))).
Proof.
  induction fs as [|f fs IH]; [by left|].
  cbn [checks].
  destruct (check_spec f) as [[-> Hf] | (x & Hx & ->)].
  - destruct IH as [[-> Hfs] | (g & x & Hg & Hx & ->)].
    + left. split; [done | by constructor].
    + right. exists g, x. split; [by apply list_elem_of_further | done].
  - right. exists f, x. split; [by apply list_elem_of_here | done].
Qed.

Lemma write_all_raise (seconds minutes hours date month year iso_week_day : option Z)
    (e : exn) (self : PCF8523) :
  assert_clock_inputs seconds minutes hours date month year iso_week_day = Raise e →
  write_all seconds minutes hours date month year iso_week_day self = (Raise e, self).
Proof. intros H. run. by rewrite H. Qed.

Lemma write_all_return (seconds minutes hours date month year iso_week_day : option Z)
    (self : PCF8523) :
  assert_clock_inputs seconds minutes hours date month year iso_week_day = Return tt →
  ∃ self',
    write_all seconds minutes hours date month year iso_week_day self = (Return tt, self')
    ∧ addr self' = addr self
    ∧ wire (bus self')
      = wire (bus self)
        ++ field_write (addr self) Reg.SECONDS seconds
        ++ field_write (addr self) Reg.MINUTES minutes
        ++ field_write (addr self) Reg.HOURS hours
        ++ field_write (addr self) Reg.DAYS date
        ++ field_write (addr self) Reg.MONTH month
        ++ field_write (addr self) Reg.YEAR year
        ++ field_write (addr self) Reg.WEEKDAY iso_week_day.
Proof.
  intros H. run. rewrite H.
  destruct seconds, minutes, hours, date, month, year, iso_week_day;
    cbn [field_write bus addr wire];
    (eexists; split; [reflexivity|]; split; [reflexivity|]);
    cbn [bus wire app]; rewrite <- ?app_assoc, ?app_nil_r; reflexivity.
Qed.

(** Either every supplied field passes and one write per supplied field is
    issued, in the order seconds, minutes, hours, date, month, year, weekday,
    or the call raises and the device is left as it was. *)
Lemma write_all_all_or_nothing (seconds minutes hours date month year iso_week_day : option Z)
    (self : PCF8523) :
  (Forall in_domain (clock_fields seconds minutes hours date month year iso_week_day)
   ∧ ∃ self',
       write_all seconds minutes hours date month year iso_week_day self = (Return tt, self')
       ∧ wire (bus self')
         = wire (bus self)
           ++ field_write (addr self) Reg.SECONDS seconds
           ++ field_write (addr self) Reg.MINUTES minutes
           ++ field_write (addr self) Reg.HOURS hours
           ++ field_write (addr self) Reg.DAYS date
           ++ field_write (addr self) Reg.MONTH month
           ++ field_write (addr self) Reg.YEAR year
           ++ field_write (addr self) Reg.WEEKDAY iso_week_day)
  ∨ (∃ f x,
       f ∈ clock_fields seconds minutes hours date month year iso_week_day
       ∧ offends f x
       ∧ write_all seconds minutes hours date month year iso_week_day self
         = (Raise (AssertionError (invalid_message f x)), self)).
Proof.
  destruct (checks_spec (clock_fields seconds minutes hours date month year iso_week_day))
    as [[Hret Hall] | (f & x & Hf & Hx & Hraise)];
    rewrite <- assert_clock_inputs_checks in *.
  - left. split; [done|].
    destruct (write_all_return _ _ _ _ _ _ _ self Hret) as (self' & ? & ? & ?).
    by exists self'.
  - right. exists f, x. split; [done|]. split; [done|].
    by apply write_all_raise.
Qed.

(** C3: when at least one field supplied to write_all lies outside its
    documented domain, the call raises the assertion error whose message
    names an offending field and its value ("invalid <field> <value>"), and
    the device is exactly as before the call: no transfer was issued. *)
Theorem write_all_rejects_before_any_write
    (seconds minutes hours date month year iso_week_day : option Z) (self : PCF8523) :
  (∃ f x, f ∈ clock_fields seconds minutes hours date month year iso_week_day
          ∧ offends f x) →
  ∃ f x,
    f ∈ clock_fields seconds minutes hours date month year iso_week_day
    ∧ offends f x
    ∧ write_all seconds minutes hours date month year iso_week_day self
      = (Raise (AssertionError (invalid_message f x)), self).
Proof.
  intros (g & y & Hg & Hsup & Hout).
  destruct (write_all_all_or_nothing seconds minutes hours date month year
              iso_week_day self) as [[Hall _] | Hrej]; [|done].
  rewrite Forall_forall in Hall. destruct Hout. by apply (Hall g Hg).
Qed.

Lemma write_all_rejects_before_any_write_witness :
  ∃ f x,
    f ∈ clock_fields (Some 30) None (Some 24) None None None None
    ∧ offends f x
    ∧ write_all (Some 30) None (Some 24) None None None None fresh_device
      = (Raise (AssertionError (invalid_message f x)), fresh_device).
Proof.
  apply (write_all_rejects_before_any_write
           (Some 30) None (Some 24) None None None None fresh_device).
  exists (mkField "hours" 0 23 (Some 24)), 24.
  split; [unfold clock_fields; set_solver|].
  split; [reflexivity | simpl; lia].
Defined.

Example write_all_hours_24 :
  write_all (Some 30) None (Some 24) None None None None fresh_device
  = (Raise (AssertionError "invalid hours 24"), fresh_device).
Proof. reflexivity. Qed.

(** ** Control register 1: the alarm interrupt bit *)

Lemma enable_alarm_interrupt_run (self : PCF8523) :
  enable_alarm_interrupt self
  = (Return tt,
     mkPCF8523
       (mkSMBus (<[(addr self, Reg.CONTROL_1) := Z.lor (peek self Reg.CONTROL_1) 0x02]>
                   (cells (bus self)))
                (wire (bus self)
                 ++ [ReadByte (addr self) Reg.CONTROL_1;
                     WriteByte (addr self) Reg.CONTROL_1
                               (Z.lor (peek self Reg.CONTROL_1) 0x02)]))
       (addr self)).
Proof. run. by rewrite <- app_assoc. Qed.

Lemma enable_alarm_interrupt_cells (self : PCF8523) :
  ∃ self',
    enable_alarm_interrupt self = (Return tt, self')
    ∧ addr self' = addr self
    ∧ cells (bus self')
      = <[(addr self, Reg.CONTROL_1) := Z.lor (peek self Reg.CONTROL_1) 0x02]>
          (cells (bus self)).
Proof. eexists. split; [apply enable_alarm_interrupt_run | done]. Qed.

Lemma lor_2_testbit (v i : Z) :
  Z.testbit (Z.lor v 0x02) i = if decide (i = 1) then true else Z.testbit v i.
Proof.
  rewrite Z.lor_spec. case_decide as Hi.
  - subst i. by rewrite orb_true_r.
  - replace (Z.testbit 2 i) with false; [by rewrite orb_false_r|].
    change 2 with (2 ^ 1). symmetry. apply Z.pow2_bits_false. lia.
Qed.

(** C6: for every value v held by control register 1, enable_alarm_interrupt
    returns and leaves v | 0x02 in the register: bit 1 is set and every other
    bit is the bit of v; every other register is unchanged; and the cells
    after two calls are the cells after one call. *)
Theorem enable_alarm_interrupt_sets_bit_1_only (self : PCF8523) :
  ∃ once twice,
    enable_alarm_interrupt self = (Return tt, once)
    ∧ enable_alarm_interrupt once = (Return tt, twice)
    ∧ Z.testbit (peek once Reg.CONTROL_1) 1 = true
    ∧ (∀ i, i ≠ 1 →
         Z.testbit (peek once Reg.CONTROL_1) i = Z.testbit (peek self Reg.CONTROL_1) i)
    ∧ (∀ r, r ≠ Reg.CONTROL_1 → peek once r = peek self r)
    ∧ peek twice Reg.CONTROL_1 = peek once Reg.CONTROL_1
    ∧ cells (bus twice) = cells (bus once).
Proof.
  destruct (enable_alarm_interrupt_cells self) as (once & Hrun1 & Ha1 & Hc1).
  destruct (enable_alarm_interrupt_cells once) as (twice & Hrun2 & Ha2 & Hc2).
  exists once, twice.
  assert (Hp1 : peek once Reg.CONTROL_1 = Z.lor (peek self Reg.CONTROL_1) 0x02).
  { unfold peek at 1. by rewrite Hc1, Ha1, lookup_insert_eq. }
  assert (Hp2 : peek twice Reg.CONTROL_1 = peek once Reg.CONTROL_1).
  { unfold peek at 1. rewrite Hc2, Ha2, lookup_insert_eq. cbn [default from_option id].
    by rewrite Hp1, <- Z.lor_assoc, Z.lor_diag. }
  repeat split; try done.
  - by rewrite Hp1, lor_2_testbit, decide_True.
  - intros i Hi. by rewrite Hp1, lor_2_testbit, decide_False.
  - intros r Hr. unfold peek. rewrite Hc1, Ha1.
    rewrite lookup_insert_ne; [done | congruence].
  - rewrite Hc2, Hc1, Ha1, insert_insert_eq. f_equal.
    by rewrite Hp1, <- Z.lor_assoc, Z.lor_diag.
Qed.

(** ** Alarm programming *)

Lemma set_alarm_run (min hour day weekday : arg (option Z)) (self : PCF8523) :
  set_alarm min hour day weekday self
  = match assert_clock_inputs None (or_default (Some 1) min) (or_default None hour)
            (or_default None day) None None (or_default None weekday) with
    | Return _ =>
        (Return tt,
         alarm_programmed (or_default (Some 1) min) (or_default None hour)
                          (or_default None day) (or_default None weekday) self)
    | Raise e => (Raise e, self)
    end.
Proof.
  unfold set_alarm.
  generalize (or_default (Some 1) min) (or_default None hour)
             (or_default None day) (or_default None weekday).
  clear min hour day weekday. intros min hour day weekday.
  unfold alarm_programmed, alarm_byte. run.
  destruct (assert_clock_inputs None min hour day None None weekday) as [[]|e];
    [|done].
  lookup_cells. by rewrite <- !app_assoc.
Qed.

Lemma peek_alarm_programmed (min hour day weekday : option Z) (self : PCF8523) :
  let self' := alarm_programmed min hour day weekday self in
  peek self' Reg.ALARM_MINUTES = alarm_byte min
  ∧ peek self' Reg.ALARM_HOURS = alarm_byte hour
  ∧ peek self' Reg.ALARM_DAY = alarm_byte day
  ∧ peek self' Reg.ALARM_WEEKDAY = alarm_byte weekday
  ∧ peek self' Reg.CONTROL_1 = Z.lor (peek self Reg.CONTROL_1) 0x02.
Proof.
  unfold alarm_programmed, peek; cbn [bus cells addr].
  repeat split; by lookup_cells.
Qed.

Lemma alarm_byte_ignore (v : option Z) : alarm_byte v = ALARM_IGNORE ↔ v = None.
Proof.
  destruct v as [x|]; [|done]. unfold alarm_byte. split; [|done].
  pose proof (land_low_bits_range (int_to_bcd x) 7 ltac:(lia)) as H.
  change (Z.ones 7) with IGNORE_LAST_BIT in H.
  unfold ALARM_IGNORE. intros Heq. rewrite Heq in H. lia.
Qed.

(** C4: set_alarm with minute=30 and hour, day, weekday left out returns on
    every device state after exactly these transfers: int_to_bcd(30) & 0x7F
    = 0x30 to the alarm-minute register 0x0A, the sentinel 0x80 to the
    alarm-hour, alarm-day and alarm-weekday registers 0x0B, 0x0C, 0x0D, then
    a read of control register 1 and a write of the value read with bit 1
    set.  Afterwards the minute register holds 0x30 (not the sentinel), the
    other three alarm registers hold 0x80, and control register 1 has bit 1
    set and its other bits as before. *)
Theorem set_alarm_minute_30 (self : PCF8523) :
  ∃ self',
    set_alarm (Passed (Some 30)) Omitted Omitted Omitted self = (Return tt, self')
    ∧ wire (bus self')
      = wire (bus self)
        ++ [WriteByte (addr self) 0x0A (Z.land (int_to_bcd 30) 0x7F);
            WriteByte (addr self) 0x0B 0x80;
            WriteByte (addr self) 0x0C 0x80;
            WriteByte (addr self) 0x0D 0x80;
            ReadByte (addr self) 0x00;
            WriteByte (addr self) 0x00 (Z.lor (peek self 0x00) 0x02)]
    ∧ Z.land (int_to_bcd 30) 0x7F = 0x30
    ∧ peek self' Reg.ALARM_MINUTES = 0x30
    ∧ 0x30 ≠ ALARM_IGNORE
    ∧ peek self' Reg.ALARM_HOURS = ALARM_IGNORE
    ∧ peek self' Reg.ALARM_DAY = ALARM_IGNORE
    ∧ peek self' Reg.ALARM_WEEKDAY = ALARM_IGNORE
    ∧ Z.testbit (peek self' Reg.CONTROL_1) 1 = true
    ∧ (∀ i, i ≠ 1 →
         Z.testbit (peek self' Reg.CONTROL_1) i = Z.testbit (peek self Reg.CONTROL_1) i).
Proof.
  eexists. split; [by rewrite set_alarm_run|]. cbn [or_default].
  destruct (peek_alarm_programmed (Some 30) None None None self)
    as (Hm & Hh & Hd & Hw & Hc).
  repeat split; try done.
  - by rewrite Hc, lor_2_testbit, decide_True.
  - intros i Hi. by rewrite Hc, lor_2_testbit, decide_False.
Qed.

(** C10: set_alarm called with no argument takes minute = 1: it is the call
    with minute 1 and the other fields left out, so on every device state it
    returns after writing int_to_bcd(1) & 0x7F = 0x01 to the alarm-minute
    register and the sentinel 0x80 to the hour, day and weekday registers and
    setting bit 1 of control register 1.  A call that returns leaves the
    sentinel in the alarm-minute register exactly when None was passed for
    the minute, and passing None does so on every device state. *)
Theorem set_alarm_default_minute_is_1 :
  (∀ self : PCF8523,
     set_alarm Omitted Omitted Omitted Omitted self
     = set_alarm (Passed (Some 1)) Omitted Omitted Omitted self
     ∧ ∃ self',
         set_alarm Omitted Omitted Omitted Omitted self = (Return tt, self')
         ∧ wire (bus self')
           = wire (bus self)
             ++ [WriteByte (addr self) Reg.ALARM_MINUTES 0x01;
                 WriteByte (addr self) Reg.ALARM_HOURS ALARM_IGNORE;
                 WriteByte (addr self) Reg.ALARM_DAY ALARM_IGNORE;
                 WriteByte (addr self) Reg.ALARM_WEEKDAY ALARM_IGNORE;
                 ReadByte (addr self) Reg.CONTROL_1;
                 WriteByte (addr self) Reg.CONTROL_1
                           (Z.lor (peek self Reg.CONTROL_1) 0x02)]
         ∧ peek self' Reg.ALARM_MINUTES = 0x01
         ∧ peek self' Reg.ALARM_HOURS = ALARM_IGNORE
         ∧ peek self' Reg.ALARM_DAY = ALARM_IGNORE
         ∧ peek self' Reg.ALARM_WEEKDAY = ALARM_IGNORE
         ∧ Z.testbit (peek self' Reg.CONTROL_1) 1 = true)
  ∧ (∀ (min hour day weekday : arg (option Z)) (self self' : PCF8523),
       set_alarm min hour day weekday self = (Return tt, self') →
       (peek self' Reg.ALARM_MINUTES = ALARM_IGNORE ↔ min = Passed None))
  ∧ (∀ self : PCF8523,
       ∃ self',
         set_alarm (Passed None) Omitted Omitted Omitted self = (Return tt, self')
         ∧ peek self' Reg.ALARM_MINUTES = ALARM_IGNORE).
Proof.
  split; [|split].
  - intros self. split; [done|].
    eexists. split; [by rewrite set_alarm_run|]. cbn [or_default].
    destruct (peek_alarm_programmed (Some 1) None None None self)
      as (Hm & Hh & Hd & Hw & Hc).
    repeat split; try done.
    by rewrite Hc, lor_2_testbit, decide_True.
  - intros min hour day weekday self self'. rewrite set_alarm_run.
    destruct (assert_clock_inputs _ _ _ _ _ _ _) as [[]|e]; [|done].
    intros [= <-].
    destruct (peek_alarm_programmed (or_default (Some 1) min) (or_default None hour)
                (or_default None day) (or_default None weekday) self) as (-> & _).
    rewrite alarm_byte_ignore.
    destruct min as [|[x|]]; cbn [or_default]; split; congruence.
  - intros self. eexists. split; [by rewrite set_alarm_run|]. cbn [or_default].
    by destruct (peek_alarm_programmed None None None None self) as (-> & _).
Qed.

(** C5: on every device state clear_alarm returns and leaves 0x00 in control
    register 2 and the sentinel 0x80 in the alarm-minute, alarm-hour,
    alarm-day and alarm-weekday registers (0x0A to 0x0D), by five writes. *)
Theorem clear_alarm_resets_alarm_registers (self : PCF8523) :
  ∃ self',
    clear_alarm self = (Return tt, self')
    ∧ peek self' 0x01 = 0x00
    ∧ peek self' 0x0A = 0x80
    ∧ peek self' 0x0B = 0x80
    ∧ peek self' 0x0C = 0x80
    ∧ peek self' 0x0D = 0x80
    ∧ wire (bus self')
      = wire (bus self)
        ++ [WriteByte (addr self) Reg.CONTROL_2 0x00;
            WriteByte (addr self) Reg.ALARM_MINUTES ALARM_IGNORE;
            WriteByte (addr self) Reg.ALARM_HOURS ALARM_IGNORE;
            WriteByte (addr self) Reg.ALARM_DAY ALARM_IGNORE;
            WriteByte (addr self) Reg.ALARM_WEEKDAY ALARM_IGNORE].
Proof.
  eexists. split; [reflexivity|].
  run. repeat split; try by lookup_cells.
  by rewrite <- !app_assoc.
Qed.

(** ** Encoding without validation *)

Lemma int_to_bcd_is_bcd_byte (n : Z) : is_bcd_byte (int_to_bcd n) ↔ 0 <= n <= 99.
Proof.
  unfold is_bcd_byte, int_to_bcd.
  assert (Hr : 0 <= n `mod` 10 < 10) by (apply Z.mod_pos_bound; lia).
  assert (Hd : (n `div` 10 * 16 + n `mod` 10) `div` 16 = n `div` 10).
  { replace (n `div` 10 * 16 + n `mod` 10) with (n `mod` 10 + n `div` 10 * 16) by lia.
    rewrite Z.div_add by lia. rewrite Z.div_small by lia. lia. }
  assert (Hm : (n `div` 10 * 16 + n `mod` 10) `mod` 16 = n `mod` 10).
  { replace (n `div` 10 * 16 + n `mod` 10) with (n `mod` 10 + n `div` 10 * 16) by lia.
    rewrite Z.mod_add by lia. apply Z.mod_small. lia. }
  rewrite Hd, Hm. pose proof (Z.div_mod n 10 ltac:(lia)). lia.
Qed.

(** C7, as the code has it: int_to_bcd validates nothing and never fails; on
    every integer n the call returns n // 10 * 16 + n % 10, which decodes
    back to n and is a byte of two decimal digits exactly when
    0 <= n <= 99. *)
Theorem int_to_bcd_never_fails (n : Z) :
  ∃ b,
    int_to_bcd_call n = Return b
    ∧ b = n `div` 10 * 16 + n `mod` 10
    ∧ bcd_to_int b = n
    ∧ (is_bcd_byte b ↔ 0 <= n <= 99).
Proof.
  exists (int_to_bcd n). split; [done|]. split; [done|].
  split; [apply bcd_to_int_int_to_bcd | apply int_to_bcd_is_bcd_byte].
Qed.

(** C7 fails on the code: 100 exceeds 99, and the call returns 0xA0. *)
Lemma int_to_bcd_100_returns :
  100 > 99
  ∧ int_to_bcd_call 100 = Return 0xA0
  ∧ ¬ ∃ e, int_to_bcd_call 100 = Raise e.
Proof. split; [lia|]. split; [reflexivity|]. by intros [e ?]. Qed.

Example int_to_bcd_160 : int_to_bcd_call 160 = Return 0x100.
Proof. reflexivity. Qed.

Example int_to_bcd_minus_1 : int_to_bcd_call (-1) = Return (-7).
Proof. reflexivity. Qed.

(** ** Clock output *)

(** C8, as the code has it: set_clk_out_frequency validates nothing and never
    fails; it issues one write of the value it is given (0x83, the 1 Hz
    code, when called without argument) to the clock-output register 0x0F,
    which then holds that value, and leaves every other register as it
    was. *)
Theorem set_clk_out_frequency_writes_any_value (frequency : arg Z) (self : PCF8523) :
  ∃ self',
    set_clk_out_frequency frequency self = (Return tt, self')
    ∧ wire (bus self')
      = wire (bus self) ++ [WriteByte (addr self) 0x0F (or_default 0x83 frequency)]
    ∧ peek self' 0x0F = or_default 0x83 frequency
    ∧ (∀ r, r ≠ 0x0F → peek self' r = peek self r).
Proof.
  eexists. split; [reflexivity|]. run.
  split; [done|]. split; [by lookup_cells|].
  intros r Hr. rewrite lookup_insert_ne; [done|].
  unfold Reg.CLK_OUT. congruence.
Qed.

(** C8 fails on the code: 0x42 is none of the five documented codes, and the
    call returns with 0x42 in the clock-output register. *)
Lemma set_clk_out_frequency_0x42_accepted :
  (0x42 ∉ documented_frequencies)
  ∧ ∃ self',
      set_clk_out_frequency (Passed 0x42) fresh_device = (Return tt, self')
      ∧ peek self' Reg.CLK_OUT = 0x42
      ∧ wire (bus self') = [WriteByte 0x68 Reg.CLK_OUT 0x42].
Proof.
  split.
  - unfold documented_frequencies. rewrite !not_elem_of_cons.
    repeat split; try done. apply not_elem_of_nil.
  - eexists. split; [reflexivity|]. split; reflexivity.
Qed.

(** ** Read accessors *)

Lemma bcd_to_int_range (y k top : Z) :
  0 <= k → 0 <= y < 2 ^ k → top = bcd_to_int (2 ^ k - 1) → 3 <= k <= 8 →
  0 <= bcd_to_int y <= top.
Proof.
  intros Hk Hy -> Hk8. unfold bcd_to_int.
  assert (k = 3 ∨ k = 4 ∨ k = 5 ∨ k = 6 ∨ k = 7 ∨ k = 8) as Hcases by lia.
  destruct Hcases as [-> | [-> | [-> | [-> | [-> | ->]]]]];
    (change (2 ^ _) with 8 in * || change (2 ^ _) with 16 in *
     || change (2 ^ _) with 32 in * || change (2 ^ _) with 64 in *
     || change (2 ^ _) with 128 in * || change (2 ^ _) with 256 in *);
    cbn; divmod.
Qed.

Lemma decodes_masked (m : method Z) (self : PCF8523) (register mask k top lo hi : Z) :
  (m self).1 = Return (bcd_to_int (Z.land (peek self register) mask)) →
  mask = Z.ones k → 3 <= k <= 8 → top = bcd_to_int (2 ^ k - 1) →
  0 <= lo → int_to_bcd hi < 2 ^ k →
  decodes m self register mask top lo hi.
Proof.
  intros Hrun -> Hk -> Hlo Hhi. eexists. split; [exact Hrun|]. split; [done|].
  split.
  - apply (bcd_to_int_range _ k); try done; try lia.
    apply land_low_bits_range. lia.
  - intros n Hn ->.
    rewrite (mask_decode_encode n hi k) by (done || lia). lia.
Qed.

(** C9, as the code has it: a read accessor returns the BCD decoding of the
    masked register byte and checks no range.  For every byte in the
    register the value lies in 0..85 for seconds and minutes, 0..45 for
    hours and day of month, 0..25 for month, 0..7 for weekday and 0..165 for
    year, and it lies in the field's documented domain when the register
    holds the encoding of a value of that domain.  (Only the year, which is
    read without a mask, needs the register content to be a byte.) *)
Theorem read_accessors_decode_masked_byte (self : PCF8523) :
  0 <= peek self Reg.YEAR <= 0xFF → time_accessors_decode self.
Proof.
  intros Hyear. unfold time_accessors_decode.
  repeat split;
    try (apply (decodes_masked _ _ _ _ 7); (done || lia));
    try (apply (decodes_masked _ _ _ _ 6); (done || lia));
    try (apply (decodes_masked _ _ _ _ 5); (done || lia));
    try (apply (decodes_masked _ _ _ _ 3); (done || lia)).
  apply (decodes_masked _ _ _ _ 8); try (done || lia).
  change 0xFF with (Z.ones 8). rewrite land_low_bits by lia. done.
Qed.

Lemma read_accessors_decode_masked_byte_witness :
  0 <= peek fresh_device Reg.YEAR <= 0xFF ∧ time_accessors_decode fresh_device.
Proof.
  split; [vm_compute; split; discriminate|].
  apply (read_accessors_decode_masked_byte fresh_device).
  vm_compute; split; discriminate.
Defined.

(** C9 fails on the code: with the byte 0x7F in the seconds register,
    read_seconds returns 85, outside 0..59. *)
Lemma read_seconds_0x7F_out_of_domain :
  0 <= peek seconds_0x7F Reg.SECONDS <= 0xFF
  ∧ (read_seconds seconds_0x7F).1 = Return 85
  ∧ ¬ (0 <= 85 <= 59).
Proof. split; [done|]. split; [reflexivity | lia]. Qed.

(** ** More on the codec *)

(** X1: encoding after decoding gives the byte back exactly when its low
    nibble is a decimal digit: int_to_bcd (bcd_to_int b) = b iff
    b % 16 <= 9, for every integer b; otherwise the result is b + 6. *)
Theorem int_to_bcd_bcd_to_int_iff (b : Z) :
  (int_to_bcd (bcd_to_int b) = b ↔ b `mod` 16 <= 9)
  ∧ (9 < b `mod` 16 → int_to_bcd (bcd_to_int b) = b + 6).
Proof.
  unfold int_to_bcd, bcd_to_int.
  assert (Hr : 0 <= b `mod` 16 < 16) by (apply Z.mod_pos_bound; lia).
  pose proof (Z.div_mod b 16 ltac:(lia)) as Hb.
  set (q := b `div` 16) in *. set (r := b `mod` 16) in *.
  replace (q * 10 + r) with (r + q * 10) by lia.
  rewrite Z.div_add, Z.mod_add by lia.
  assert (Hcases : r <= 9 ∨ 9 < r) by lia.
  destruct Hcases as [Hsmall | Hbig].
  - rewrite Z.div_small, Z.mod_small by lia. split; [split; lia | lia].
  - assert (r `div` 10 = 1 ∧ r `mod` 10 = r - 10) as [-> ->] by divmod.
    split; [split; lia | lia].
Qed.

(** X2: int_to_bcd keeps the order of every two integers, so it is
    injective: the raw bytes of two field values compare as the values
    do. *)
Theorem int_to_bcd_strictly_monotone (n m : Z) :
  (n < m ↔ int_to_bcd n < int_to_bcd m) ∧ (int_to_bcd n = int_to_bcd m ↔ n = m).
Proof.
  assert (Hlt : ∀ a b, a < b → int_to_bcd a < int_to_bcd b).
  { intros a b Hab. unfold int_to_bcd. divmod. }
  split; split.
  - apply Hlt.
  - intros H. destruct (Z.lt_trichotomy n m) as [?|[->|Hgt]]; [done|lia|].
    apply Hlt in Hgt. lia.
  - intros H. destruct (Z.lt_trichotomy n m) as [Hl|[?|Hg]]; [|done|].
    + apply Hlt in Hl. lia.
    + apply Hlt in Hg. lia.
  - by intros ->.
Qed.

(** ** More on the range assertions *)

Lemma assert_clock_inputs_returns_cases
    (seconds minutes hours days month year weekday : option Z) :
  (assert_clock_inputs seconds minutes hours days month year weekday = Return tt
   ↔ Forall in_domain (clock_fields seconds minutes hours days month year weekday))
  ∧ assert_clock_inputs None None None None None None None = Return tt.
Proof.
  split; [|done].
  rewrite assert_clock_inputs_checks.
  destruct (checks_spec (clock_fields seconds minutes hours days month year weekday))
    as [[Hret Hall] | (f & x & Hf & [Hsup Hout] & Hraise)].
  - by rewrite Hret.
  - rewrite Hraise. split; [done|].
    intros Hall. rewrite Forall_forall in Hall. destruct Hout. by apply (Hall f).
Qed.

(** X3: assert_clock_inputs returns exactly when every supplied field lies
    in its domain (seconds, minutes 0..59, hours 0..23, days 1..31, month
    1..12, year 0..99, weekday 1..7); fields left as None are not tested,
    so the call with no field returns. *)
Theorem assert_clock_inputs_returns_iff
    (seconds minutes hours days month year weekday : option Z) :
  (assert_clock_inputs seconds minutes hours days month year weekday = Return tt
   ↔ Forall in_domain (clock_fields seconds minutes hours days month year weekday))
  ∧ assert_clock_inputs None None None None None None None = Return tt.
Proof. apply assert_clock_inputs_returns_cases. Qed.

Lemma checks_first_offender (pre post : list field) (f : field) (x : Z) :
  Forall in_domain pre → offends f x →
  checks (pre ++ f :: post) = Raise (AssertionError (invalid_message f x)).
Proof.
  intros Hpre [Hsup Hout]. induction Hpre as [|g pre Hg _ IH]; cbn [app checks].
  - destruct (check_spec f) as [[_ Hin] | (y & [Hy _] & ->)].
    + destruct Hout. by apply Hin.
    + rewrite Hsup in Hy. by injection Hy as <-.
  - destruct (check_spec g) as [[-> _] | (y & [Hy Hbad] & _)]; [exact IH|].
    destruct Hbad. by apply Hg.
Qed.

(** X4: the assertions run in the order seconds, minutes, hours, days,
    month, year, weekday and the error names the first field that is out of
    its domain: when the fields before f are in their domains and f is
    supplied as x outside its domain, the call raises
    AssertionError "invalid <f> <x>", whatever the later fields are. *)
Theorem assert_clock_inputs_names_first_offender
    (seconds minutes hours days month year weekday : option Z)
    (pre post : list field) (f : field) (x : Z) :
  clock_fields seconds minutes hours days month year weekday = pre ++ f :: post →
  Forall in_domain pre → offends f x →
  assert_clock_inputs seconds minutes hours days month year weekday
  = Raise (AssertionError (invalid_message f x)).
Proof.
  intros Hsplit Hpre Hx. rewrite assert_clock_inputs_checks, Hsplit.
  by apply checks_first_offender.
Qed.

Lemma assert_clock_inputs_names_first_offender_witness :
  assert_clock_inputs (Some 59) None (Some 24) None (Some 13) None None
  = Raise (AssertionError "invalid hours 24").
Proof.
  apply (assert_clock_inputs_names_first_offender
           (Some 59) None (Some 24) None (Some 13) None None
           [mkField "seconds" 0 59 (Some 59); mkField "minutes" 0 59 None]
           [mkField "days" 1 31 None; mkField "month" 1 12 (Some 13);
            mkField "year" 0 99 None; mkField "weekday" 1 7 None]
           (mkField "hours" 0 23 (Some 24)) 24).
  - reflexivity.
  - constructor; [intros y [= <-]; simpl; lia|].
    constructor; [intros y [=]|]. constructor.
  - split; [reflexivity | simpl; lia].
Defined.

(** ** More on the time registers *)

Lemma in_domain_clock_fields (seconds minutes hours days month year weekday : option Z) :
  Forall in_domain (clock_fields seconds minutes hours days month year weekday) →
  (∀ x, seconds = Some x → 0 <= x <= 59)
  ∧ (∀ x, minutes = Some x → 0 <= x <= 59)
  ∧ (∀ x, hours = Some x → 0 <= x <= 23)
  ∧ (∀ x, days = Some x → 1 <= x <= 31)
  ∧ (∀ x, month = Some x → 1 <= x <= 12)
  ∧ (∀ x, year = Some x → 0 <= x <= 99)
  ∧ (∀ x, weekday = Some x → 1 <= x <= 7).
Proof.
  unfold clock_fields. rewrite !Forall_cons. unfold in_domain; cbn [supplied lo hi].
  intros (? & ? & ? & ? & ? & ? & ? & _). done.
Qed.

Lemma lookup_put_field_eq (a r : Z) (v : option Z) (c : gmap (Z * Z) Z) :
  default 0 (put_field a r v c !! (a, r)) = updated (default 0 (c !! (a, r))) v.
Proof. destruct v; cbn [put_field updated]; [by rewrite lookup_insert_eq | done]. Qed.

Lemma lookup_put_field_ne (a r r' : Z) (v : option Z) (c : gmap (Z * Z) Z) :
  r ≠ r' → put_field a r v c !! (a, r') = c !! (a, r').
Proof.
  intros Hne. destruct v; cbn [put_field]; [|done].
  rewrite lookup_insert_ne; [done | congruence].
Qed.

Lemma field_write_run (register : Z) (v : option Z) (self : PCF8523) :
  match v with
  | Some x => write register (int_to_bcd x)
  | None => mret tt
  end self
  = (Return tt,
     mkPCF8523 (mkSMBus (put_field (addr self) register v (cells (bus self)))
                        (wire (bus self) ++ field_write (addr self) register v))
               (addr self)).
Proof.
  destruct self as [[c w] a]. destruct v; cbn; [done|]. by rewrite app_nil_r.
Qed.

Lemma write_all_cells (seconds minutes hours date month year iso_week_day : option Z)
    (self : PCF8523) :
  assert_clock_inputs seconds minutes hours date month year iso_week_day = Return tt →
  ∃ self',
    write_all seconds minutes hours date month year iso_week_day self = (Return tt, self')
    ∧ addr self' = addr self
    ∧ cells (bus self')
      = put_field (addr self) Reg.WEEKDAY iso_week_day
          (put_field (addr self) Reg.YEAR year
             (put_field (addr self) Reg.MONTH month
                (put_field (addr self) Reg.DAYS date
                   (put_field (addr self) Reg.HOURS hours
                      (put_field (addr self) Reg.MINUTES minutes
                         (put_field (addr self) Reg.SECONDS seconds
                            (cells (bus self)))))))).
Proof.
  intros H. unfold write_all, call, mbind, method_bind. rewrite H.
  do 6 (rewrite field_write_run; cbn [addr bus cells wire]).
  rewrite field_write_run.
  eexists. split; [reflexivity|]. split; reflexivity.
Qed.

Ltac registers_differ :=
  unfold Reg.CONTROL_1, Reg.CONTROL_2, Reg.SECONDS, Reg.MINUTES, Reg.HOURS,
    Reg.DAYS, Reg.WEEKDAY, Reg.MONTH, Reg.YEAR, Reg.ALARM_MINUTES,
    Reg.ALARM_HOURS, Reg.ALARM_DAY, Reg.ALARM_WEEKDAY, Reg.CLK_OUT in *;
  congruence.

Lemma write_all_peek (seconds minutes hours date month year iso_week_day : option Z)
    (self : PCF8523) :
  assert_clock_inputs seconds minutes hours date month year iso_week_day = Return tt →
  ∃ self',
    write_all seconds minutes hours date month year iso_week_day self = (Return tt, self')
    ∧ addr self' = addr self
    ∧ peek self' Reg.SECONDS = updated (peek self Reg.SECONDS) seconds
    ∧ peek self' Reg.MINUTES = updated (peek self Reg.MINUTES) minutes
    ∧ peek self' Reg.HOURS = updated (peek self Reg.HOURS) hours
    ∧ peek self' Reg.DAYS = updated (peek self Reg.DAYS) date
    ∧ peek self' Reg.MONTH = updated (peek self Reg.MONTH) month
    ∧ peek self' Reg.YEAR = updated (peek self Reg.YEAR) year
    ∧ peek self' Reg.WEEKDAY = updated (peek self Reg.WEEKDAY) iso_week_day
    ∧ (∀ r, r ∉ time_registers → peek self' r = peek self r).
Proof.
  intros H.
  destruct (write_all_cells _ _ _ _ _ _ _ self H) as (self' & Hrun & Ha & Hc).
  exists self'. split; [done|]. split; [done|].
  unfold peek. rewrite Hc, Ha.
  repeat split.
  - rewrite !lookup_put_field_ne by registers_differ. apply lookup_put_field_eq.
  - rewrite !(lookup_put_field_ne _ _ Reg.MINUTES) by registers_differ.
    rewrite lookup_put_field_eq. by rewrite lookup_put_field_ne by registers_differ.
  - rewrite !(lookup_put_field_ne _ _ Reg.HOURS) by registers_differ.
    rewrite lookup_put_field_eq. by rewrite !lookup_put_field_ne by registers_differ.
  - rewrite !(lookup_put_field_ne _ _ Reg.DAYS) by registers_differ.
    rewrite lookup_put_field_eq. by rewrite !lookup_put_field_ne by registers_differ.
  - rewrite !(lookup_put_field_ne _ _ Reg.MONTH) by registers_differ.
    rewrite lookup_put_field_eq. by rewrite !lookup_put_field_ne by registers_differ.
  - rewrite !(lookup_put_field_ne _ _ Reg.YEAR) by registers_differ.
    rewrite lookup_put_field_eq. by rewrite !lookup_put_field_ne by registers_differ.
  - rewrite lookup_put_field_eq. by rewrite !lookup_put_field_ne by registers_differ.
  - intros r Hr. unfold time_registers in Hr. rewrite !not_elem_of_cons in Hr.
    destruct Hr as (? & ? & ? & ? & ? & ? & ? & _).
    by rewrite !lookup_put_field_ne by congruence.
Qed.

Lemma write_all_updates_cells
    (seconds minutes hours date month year iso_week_day : option Z) (self : PCF8523) :
  Forall in_domain (clock_fields seconds minutes hours date month year iso_week_day) →
  ∃ self',
    write_all seconds minutes hours date month year iso_week_day self = (Return tt, self')
    ∧ peek self' Reg.SECONDS = updated (peek self Reg.SECONDS) seconds
    ∧ peek self' Reg.MINUTES = updated (peek self Reg.MINUTES) minutes
    ∧ peek self' Reg.HOURS = updated (peek self Reg.HOURS) hours
    ∧ peek self' Reg.DAYS = updated (peek self Reg.DAYS) date
    ∧ peek self' Reg.MONTH = updated (peek self Reg.MONTH) month
    ∧ peek self' Reg.YEAR = updated (peek self Reg.YEAR) year
    ∧ peek self' Reg.WEEKDAY = updated (peek self Reg.WEEKDAY) iso_week_day
    ∧ (∀ r, r ∉ time_registers → peek self' r = peek self r).
Proof.
  intros Hall.
  destruct (checks_spec (clock_fields seconds minutes hours date month year iso_week_day))
    as [[Hret _] | (f & x & Hf & [Hsup Hout] & _)].
  - rewrite <- assert_clock_inputs_checks in Hret.
    destruct (write_all_peek _ _ _ _ _ _ _ self Hret) as (self' & Hrun & _ & Hpeek).
    by exists self'.
  - rewrite Forall_forall in Hall. destruct Hout. by apply (Hall f).
Qed.

(** X5: when every supplied field is in its domain, write_all returns and
    changes only the registers of the supplied fields: each of the seven
    time registers then holds int_to_bcd of the value supplied for it, or
    what it held when its field was left out, and every other register of
    the device holds what it held. *)
Theorem write_all_updates_supplied_fields_only
    (seconds minutes hours date month year iso_week_day : option Z) (self : PCF8523) :
  Forall in_domain (clock_fields seconds minutes hours date month year iso_week_day) →
  ∃ self',
    write_all seconds minutes hours date month year iso_week_day self = (Return tt, self')
    ∧ peek self' Reg.SECONDS = updated (peek self Reg.SECONDS) seconds
    ∧ peek self' Reg.MINUTES = updated (peek self Reg.MINUTES) minutes
    ∧ peek self' Reg.HOURS = updated (peek self Reg.HOURS) hours
    ∧ peek self' Reg.DAYS = updated (peek self Reg.DAYS) date
    ∧ peek self' Reg.MONTH = updated (peek self Reg.MONTH) month
    ∧ peek self' Reg.YEAR = updated (peek self Reg.YEAR) year
    ∧ peek self' Reg.WEEKDAY = updated (peek self Reg.WEEKDAY) iso_week_day
    ∧ (∀ r, r ∉ time_registers → peek self' r = peek self r).
Proof. apply write_all_updates_cells. Qed.

Lemma write_all_updates_supplied_fields_only_witness :
  ∃ self',
    write_all None (Some 30) None None None None None seconds_0x7F = (Return tt, self')
    ∧ peek self' Reg.SECONDS = updated (peek seconds_0x7F Reg.SECONDS) None
    ∧ peek self' Reg.MINUTES = updated (peek seconds_0x7F Reg.MINUTES) (Some 30)
    ∧ peek self' Reg.HOURS = updated (peek seconds_0x7F Reg.HOURS) None
    ∧ peek self' Reg.DAYS = updated (peek seconds_0x7F Reg.DAYS) None
    ∧ peek self' Reg.MONTH = updated (peek seconds_0x7F Reg.MONTH) None
    ∧ peek self' Reg.YEAR = updated (peek seconds_0x7F Reg.YEAR) None
    ∧ peek self' Reg.WEEKDAY = updated (peek seconds_0x7F Reg.WEEKDAY) None
    ∧ (∀ r, r ∉ time_registers → peek self' r = peek seconds_0x7F r).
Proof.
  apply (write_all_updates_supplied_fields_only
           None (Some 30) None None None None None seconds_0x7F).
  unfold clock_fields.
  repeat (constructor; [intros y [=]; subst; simpl; lia|]). constructor.
Defined.

Lemma read_all_run (self : PCF8523) :
  read_all self
  = (Return (bcd_to_int (peek self Reg.YEAR),
             bcd_to_int (Z.land (peek self Reg.MONTH) 0x1F),
             bcd_to_int (Z.land (peek self Reg.DAYS) 0x3F),
             bcd_to_int (Z.land (peek self Reg.WEEKDAY) 0x07),
             bcd_to_int (Z.land (peek self Reg.HOURS) 0x3F),
             bcd_to_int (Z.land (peek self Reg.MINUTES) IGNORE_LAST_BIT),
             bcd_to_int (Z.land (peek self Reg.SECONDS) IGNORE_LAST_BIT)),
     mkPCF8523
       (mkSMBus (cells (bus self))
                (wire (bus self)
                 ++ [ReadByte (addr self) Reg.YEAR; ReadByte (addr self) Reg.MONTH;
                     ReadByte (addr self) Reg.DAYS; ReadByte (addr self) Reg.WEEKDAY;
                     ReadByte (addr self) Reg.HOURS; ReadByte (addr self) Reg.MINUTES;
                     ReadByte (addr self) Reg.SECONDS]))
       (addr self)).
Proof. run. by rewrite <- !app_assoc. Qed.

(** X6: read_all never raises and never writes: it issues exactly seven
    reads, of the year, month, day-of-month, weekday, hours, minutes and
    seconds registers in this order, leaves every register as it was, and
    read again at once it returns the same tuple. *)
Theorem read_all_only_reads (self : PCF8523) :
  ∃ v self',
    read_all self = (Return v, self')
    ∧ wire (bus self')
      = wire (bus self)
        ++ [ReadByte (addr self) 0x09; ReadByte (addr self) 0x08;
            ReadByte (addr self) 0x06; ReadByte (addr self) 0x07;
            ReadByte (addr self) 0x05; ReadByte (addr self) 0x04;
            ReadByte (addr self) 0x03]
    ∧ cells (bus self') = cells (bus self)
    ∧ (∀ r, peek self' r = peek self r)
    ∧ (read_all self').1 = Return v.
Proof.
  eexists _, _. split; [apply read_all_run|].
  split; [done|]. split; [done|]. split; [done|].
  by rewrite read_all_run.
Qed.

Ltac domain_side H :=
  first [reflexivity | lia | intros ? Hx; specialize (H _ Hx); lia].

Lemma decode_updated (old : Z) (v : option Z) (mask k hi : Z) :
  mask = Z.ones k → 0 <= k → int_to_bcd hi < 2 ^ k →
  (∀ x, v = Some x → 0 <= x <= hi) →
  bcd_to_int (Z.land (updated old v) mask) = default (bcd_to_int (Z.land old mask)) v.
Proof.
  intros Hmask Hk Hhi Hv. destruct v as [x|]; cbn [updated default from_option id]; [|done].
  apply (mask_decode_encode x hi k); auto.
Qed.

(** X7: a partial update leaves the other fields as they read before: when
    read_all returns (y, mo, d, wd, h, mi, s) and every field supplied to
    write_all is in its domain, write_all returns and read_all then returns
    the supplied value for each supplied field and the earlier reading for
    each field left out. *)
Theorem write_all_then_read_all
    (seconds minutes hours date month year iso_week_day : option Z)
    (y mo d wd h mi s : Z) (self : PCF8523) :
  Forall in_domain (clock_fields seconds minutes hours date month year iso_week_day) →
  (read_all self).1 = Return (y, mo, d, wd, h, mi, s) →
  ∃ self',
    write_all seconds minutes hours date month year iso_week_day self = (Return tt, self')
    ∧ (read_all self').1
      = Return (default y year, default mo month, default d date,
                default wd iso_week_day, default h hours, default mi minutes,
                default s seconds).
Proof.
  intros Hall Hread. rewrite read_all_run in Hread. cbn [fst] in Hread.
  injection Hread as <- <- <- <- <- <- <-.
  pose proof (in_domain_clock_fields _ _ _ _ _ _ _ Hall)
    as (Hs & Hmi & Hh & Hd & Hmo & Hy & Hwd).
  destruct (write_all_updates_cells _ _ _ _ _ _ _ self Hall)
    as (self' & Hrun & Hps & Hpmi & Hph & Hpd & Hpmo & Hpy & Hpwd & _).
  exists self'. split; [done|].
  rewrite read_all_run. cbn [fst].
  rewrite Hps, Hpmi, Hph, Hpd, Hpmo, Hpy, Hpwd.
  rewrite (decode_updated _ seconds IGNORE_LAST_BIT 7 59) by (domain_side Hs).
  rewrite (decode_updated _ minutes IGNORE_LAST_BIT 7 59) by (domain_side Hmi).
  rewrite (decode_updated _ hours 0x3F 6 23) by (domain_side Hh).
  rewrite (decode_updated _ date 0x3F 6 31) by (domain_side Hd).
  rewrite (decode_updated _ month 0x1F 5 12) by (domain_side Hmo).
  rewrite (decode_updated _ iso_week_day 0x07 3 7) by (domain_side Hwd).
  destruct year as [x|]; cbn [updated default from_option id]; [|done].
  by rewrite bcd_to_int_int_to_bcd.
Qed.

Lemma write_all_then_read_all_witness :
  ∃ self',
    write_all None None (Some 13) None None None None seconds_0x7F = (Return tt, self')
    ∧ (read_all self').1 = Return (0, 0, 0, 0, 13, 0, 85).
Proof.
  apply (write_all_then_read_all None None (Some 13) None None None None
           0 0 0 0 0 0 85 seconds_0x7F).
  - unfold clock_fields.
    repeat (constructor; [intros x [=]; subst; simpl; lia|]). constructor.
  - reflexivity.
Defined.

(** ** More on the control registers *)

Ltac run_flags :=
  unfold is_alarm_interrupt_enabled, is_alarm_on; run.

Lemma land_pow2 (v n : Z) :
  0 <= n → Z.land v (2 ^ n) = if Z.testbit v n then 2 ^ n else 0.
Proof.
  intros Hn. apply Z.bits_inj'. intros i Hi. rewrite Z.land_spec.
  destruct (decide (i = n)) as [->|Hne].
  - rewrite Z.pow2_bits_true by done.
    destruct (Z.testbit v n); [by rewrite Z.pow2_bits_true | by rewrite Z.bits_0].
  - rewrite Z.pow2_bits_false by lia. rewrite andb_false_r.
    destruct (Z.testbit v n); [by rewrite Z.pow2_bits_false by lia | by rewrite Z.bits_0].
Qed.

Lemma py_bool_land_pow2 (v n : Z) :
  0 <= n → py_bool (Z.land v (2 ^ n)) = Z.testbit v n.
Proof.
  intros Hn. rewrite land_pow2 by done. unfold py_bool.
  destruct (Z.testbit v n); [|done].
  assert (0 < 2 ^ n) by (apply Z.pow_pos_nonneg; lia).
  apply negb_true_iff, Z.eqb_neq. lia.
Qed.

Lemma byte_high_bits (v i : Z) : 0 <= v <= 0xFF → 8 <= i → Z.testbit v i = false.
Proof.
  intros Hv Hi. destruct (decide (v = 0)) as [->|Hne]; [apply Z.bits_0|].
  apply Z.bits_above_log2; [lia|].
  assert (Z.log2 v < 8); [|lia]. apply Z.log2_lt_pow2; lia.
Qed.

(** Bits 0 to 7 of a mask that has all of them set but bit [k]. *)
Lemma land_clear_bit (v mask k i : Z) :
  0 <= k < 8 → mask = 0xFF - 2 ^ k →
  Z.testbit (Z.land v mask) i
  = if decide (i = k) then false
    else if decide (0 <= i < 8) then Z.testbit v i else false.
Proof.
  intros Hk ->. rewrite Z.land_spec.
  assert (Hmask : ∀ j, Z.testbit (0xFF - 2 ^ k) j
                       = bool_decide (0 <= j < 8 ∧ j ≠ k)).
  { intros j.
    assert (k = 0 ∨ k = 1 ∨ k = 2 ∨ k = 3 ∨ k = 4 ∨ k = 5 ∨ k = 6 ∨ k = 7)
      as Hcases by lia.
    destruct (decide (0 <= j < 8)) as [Hj|Hj].
    - assert (j = 0 ∨ j = 1 ∨ j = 2 ∨ j = 3 ∨ j = 4 ∨ j = 5 ∨ j = 6 ∨ j = 7)
        as Hjs by lia.
      destruct Hcases as [-> | [-> | [-> | [-> | [-> | [-> | [-> | ->]]]]]]];
        destruct Hjs as [-> | [-> | [-> | [-> | [-> | [-> | [-> | ->]]]]]]];
        reflexivity.
    - rewrite bool_decide_eq_false_2 by tauto.
      destruct (decide (j < 0)); [by apply Z.testbit_neg_r|].
      apply byte_high_bits; [|lia].
      destruct Hcases as [-> | [-> | [-> | [-> | [-> | [-> | [-> | ->]]]]]]];
        simpl; lia. }
  rewrite Hmask.
  destruct (decide (i = k)) as [->|Hik].
  - rewrite bool_decide_eq_false_2 by tauto. apply andb_false_r.
  - destruct (decide (0 <= i < 8)) as [Hi|Hi].
    + rewrite bool_decide_eq_true_2 by tauto. apply andb_true_r.
    + rewrite bool_decide_eq_false_2 by tauto. apply andb_false_r.
Qed.

Lemma land_byte_mask (v mask : Z) :
  Z.land (Z.ones 8) mask = mask → 0 <= Z.land v mask <= 0xFF.
Proof.
  intros H.
  replace (Z.land v mask) with (Z.land (Z.land v mask) (Z.ones 8)).
  - pose proof (land_low_bits_range (Z.land v mask) 8 ltac:(lia)) as Hw.
    change (2 ^ 8) with 256 in Hw. lia.
  - by rewrite <- Z.land_assoc, (Z.land_comm mask), H.
Qed.

Lemma disable_alarm_interrupt_cells (self : PCF8523) :
  ∃ self',
    disable_alarm_interrupt self = (Return tt, self')
    ∧ addr self' = addr self
    ∧ cells (bus self')
      = <[(addr self, Reg.CONTROL_1) := Z.land (peek self Reg.CONTROL_1) 0xfd]>
          (cells (bus self)).
Proof. eexists. split; [reflexivity|]. by run. Qed.

Lemma turn_alarm_off_cells (self : PCF8523) :
  ∃ self',
    turn_alarm_off self = (Return tt, self')
    ∧ addr self' = addr self
    ∧ cells (bus self')
      = <[(addr self, Reg.CONTROL_2) := Z.land (peek self Reg.CONTROL_2) 0xf7]>
          (cells (bus self)).
Proof. eexists. split; [reflexivity|]. by run. Qed.

Lemma is_alarm_interrupt_enabled_run (self : PCF8523) :
  is_alarm_interrupt_enabled self
  = (Return (Z.testbit (peek self Reg.CONTROL_1) 1),
     mkPCF8523 (mkSMBus (cells (bus self))
                        (wire (bus self) ++ [ReadByte (addr self) Reg.CONTROL_1]))
               (addr self)).
Proof.
  run_flags. change 2 with (2 ^ 1). by rewrite py_bool_land_pow2.
Qed.

Lemma is_alarm_on_run (self : PCF8523) :
  is_alarm_on self
  = (Return (Z.testbit (peek self Reg.CONTROL_2) 3),
     mkPCF8523 (mkSMBus (cells (bus self))
                        (wire (bus self) ++ [ReadByte (addr self) Reg.CONTROL_2]))
               (addr self)).
Proof.
  run_flags. change 8 with (2 ^ 3). by rewrite py_bool_land_pow2.
Qed.

Lemma peek_after_insert_eq (self self' : PCF8523) (r v : Z) :
  addr self' = addr self →
  cells (bus self') = <[(addr self, r) := v]> (cells (bus self)) →
  peek self' r = v.
Proof. intros Ha Hc. unfold peek. by rewrite Hc, Ha, lookup_insert_eq. Qed.

Lemma peek_after_insert_ne (self self' : PCF8523) (r r' v : Z) :
  addr self' = addr self →
  cells (bus self') = <[(addr self, r) := v]> (cells (bus self)) →
  r ≠ r' → peek self' r' = peek self r'.
Proof.
  intros Ha Hc Hne. unfold peek. rewrite Hc, Ha.
  rewrite lookup_insert_ne; [done | congruence].
Qed.

(** X8: disable_alarm_interrupt returns on every device state and leaves
    value & 0xfd in control register 1: bit 1 is clear, bits 0 and 2 to 7
    are as they were, the result is a byte, every other register is
    unchanged, and a second call leaves the same cells. *)
Theorem disable_alarm_interrupt_clears_bit_1_only (self : PCF8523) :
  ∃ once twice,
    disable_alarm_interrupt self = (Return tt, once)
    ∧ disable_alarm_interrupt once = (Return tt, twice)
    ∧ Z.testbit (peek once Reg.CONTROL_1) 1 = false
    ∧ (∀ i, 0 <= i < 8 → i ≠ 1 →
         Z.testbit (peek once Reg.CONTROL_1) i = Z.testbit (peek self Reg.CONTROL_1) i)
    ∧ 0 <= peek once Reg.CONTROL_1 <= 0xFF
    ∧ (∀ r, r ≠ Reg.CONTROL_1 → peek once r = peek self r)
    ∧ cells (bus twice) = cells (bus once).
Proof.
  destruct (disable_alarm_interrupt_cells self) as (once & Hrun1 & Ha1 & Hc1).
  destruct (disable_alarm_interrupt_cells once) as (twice & Hrun2 & Ha2 & Hc2).
  exists once, twice.
  pose proof (peek_after_insert_eq _ _ _ _ Ha1 Hc1) as Hp1.
  split; [done|]. split; [done|].
  rewrite Hp1.
  split; [by rewrite (land_clear_bit _ _ 1), decide_True|].
  split.
  { intros i Hi Hne.
    by rewrite (land_clear_bit _ _ 1), decide_False, decide_True. }
  split; [by apply land_byte_mask|].
  split; [intros r Hr; by apply (peek_after_insert_ne _ _ _ _ _ Ha1 Hc1)|].
  rewrite Hc2, Ha1, Hp1, Hc1, insert_insert_eq. f_equal.
  by rewrite <- Z.land_assoc, Z.land_diag.
Qed.

(** X9: is_alarm_interrupt_enabled returns bit 1 of control register 1 and
    changes no register; it returns True after enable_alarm_interrupt and
    False after disable_alarm_interrupt, whatever the register held. *)
Theorem is_alarm_interrupt_enabled_follows_enable_disable (self : PCF8523) :
  (is_alarm_interrupt_enabled self).1 = Return (Z.testbit (peek self Reg.CONTROL_1) 1)
  ∧ cells (bus (is_alarm_interrupt_enabled self).2) = cells (bus self)
  ∧ ∃ on off,
      enable_alarm_interrupt self = (Return tt, on)
      ∧ disable_alarm_interrupt self = (Return tt, off)
      ∧ (is_alarm_interrupt_enabled on).1 = Return true
      ∧ (is_alarm_interrupt_enabled off).1 = Return false.
Proof.
  rewrite is_alarm_interrupt_enabled_run. split; [done|]. split; [done|].
  destruct (enable_alarm_interrupt_cells self) as (on & Hon & Ha1 & Hc1).
  destruct (disable_alarm_interrupt_cells self) as (off & Hoff & Ha2 & Hc2).
  exists on, off. split; [done|]. split; [done|].
  rewrite !is_alarm_interrupt_enabled_run. cbn [fst].
  rewrite (peek_after_insert_eq _ _ _ _ Ha1 Hc1), (peek_after_insert_eq _ _ _ _ Ha2 Hc2).
  split; f_equal.
  - by rewrite lor_2_testbit, decide_True.
  - by rewrite (land_clear_bit _ _ 1), decide_True.
Qed.

(** X10: is_alarm_on returns bit 3 of control register 2.  turn_alarm_off
    returns on every device state and clears that bit only: bits 0 to 2 and
    4 to 7 of control register 2 and every other register, the alarm
    registers and control register 1 among them, are as they were, and
    is_alarm_on then returns False. *)
Theorem turn_alarm_off_clears_flag_only (self : PCF8523) :
  (is_alarm_on self).1 = Return (Z.testbit (peek self Reg.CONTROL_2) 3)
  ∧ ∃ off,
      turn_alarm_off self = (Return tt, off)
      ∧ (is_alarm_on off).1 = Return false
      ∧ (∀ i, 0 <= i < 8 → i ≠ 3 →
           Z.testbit (peek off Reg.CONTROL_2) i = Z.testbit (peek self Reg.CONTROL_2) i)
      ∧ (∀ r, r ≠ Reg.CONTROL_2 → peek off r = peek self r).
Proof.
  rewrite is_alarm_on_run. split; [done|].
  destruct (turn_alarm_off_cells self) as (off & Hoff & Ha & Hc).
  exists off. split; [done|].
  rewrite is_alarm_on_run. cbn [fst].
  rewrite (peek_after_insert_eq _ _ _ _ Ha Hc).
  split; [f_equal; by rewrite (land_clear_bit _ _ 3), decide_True|].
  split.
  - intros i Hi Hne. by rewrite (land_clear_bit _ _ 3), decide_False, decide_True.
  - intros r Hr. by apply (peek_after_insert_ne _ _ _ _ _ Ha Hc).
Qed.

(** X11: clear_alarm changes control register 2 and the four alarm registers
    and nothing else; control register 1 is not written, so the alarm
    interrupt stays enabled or disabled as it was, while is_alarm_on returns
    False afterwards. *)
Theorem clear_alarm_keeps_interrupt_setting (self : PCF8523) :
  ∃ cleared,
    clear_alarm self = (Return tt, cleared)
    ∧ (∀ r, r ≠ Reg.CONTROL_2 → r ∉ alarm_registers → peek cleared r = peek self r)
    ∧ (is_alarm_on cleared).1 = Return false
    ∧ (is_alarm_interrupt_enabled cleared).1 = (is_alarm_interrupt_enabled self).1.
Proof.
  eexists. split; [reflexivity|].
  rewrite is_alarm_on_run, !is_alarm_interrupt_enabled_run. cbn [fst].
  run.
  split.
  { intros r Hr Hal. unfold alarm_registers in Hal. rewrite !not_elem_of_cons in Hal.
    destruct Hal as (? & ? & ? & ? & _).
    by rewrite !lookup_insert_ne by congruence. }
  split; by lookup_cells.
Qed.

(** X12: of enable_alarm_interrupt and disable_alarm_interrupt the last call
    decides: when control register 1 holds a byte, enabling after disabling
    leaves the cells of enabling alone, and disabling after enabling leaves
    the cells of disabling alone. *)
Theorem enable_disable_last_call_decides (self : PCF8523) :
  0 <= peek self Reg.CONTROL_1 <= 0xFF →
  ∃ on off off_on on_off,
    enable_alarm_interrupt self = (Return tt, on)
    ∧ disable_alarm_interrupt self = (Return tt, off)
    ∧ enable_alarm_interrupt off = (Return tt, off_on)
    ∧ disable_alarm_interrupt on = (Return tt, on_off)
    ∧ cells (bus off_on) = cells (bus on)
    ∧ cells (bus on_off) = cells (bus off).
Proof.
  intros Hbyte.
  destruct (enable_alarm_interrupt_cells self) as (on & Hon & Ha1 & Hc1).
  destruct (disable_alarm_interrupt_cells self) as (off & Hoff & Ha2 & Hc2).
  destruct (enable_alarm_interrupt_cells off) as (off_on & Hoff_on & Ha3 & Hc3).
  destruct (disable_alarm_interrupt_cells on) as (on_off & Hon_off & Ha4 & Hc4).
  exists on, off, off_on, on_off. repeat (split; [done|]).
  rewrite Hc3, Hc4, Ha1, Ha2.
  rewrite (peek_after_insert_eq _ _ _ _ Ha1 Hc1), (peek_after_insert_eq _ _ _ _ Ha2 Hc2).
  rewrite Hc1, Hc2, !insert_insert_eq.
  split; f_equal; apply Z.bits_inj'; intros i Hi.
  - rewrite !lor_2_testbit. case_decide; [done|].
    rewrite (land_clear_bit _ _ 1), decide_False by done.
    case_decide; [done|]. symmetry. apply byte_high_bits; [done | lia].
  - rewrite !(land_clear_bit _ _ 1) by done. rewrite lor_2_testbit.
    by repeat case_decide.
Qed.

Lemma enable_disable_last_call_decides_witness :
  ∃ on off off_on on_off,
    enable_alarm_interrupt seconds_0x7F = (Return tt, on)
    ∧ disable_alarm_interrupt seconds_0x7F = (Return tt, off)
    ∧ enable_alarm_interrupt off = (Return tt, off_on)
    ∧ disable_alarm_interrupt on = (Return tt, on_off)
    ∧ cells (bus off_on) = cells (bus on)
    ∧ cells (bus on_off) = cells (bus off).
Proof.
  apply (enable_disable_last_call_decides seconds_0x7F).
  vm_compute. split; discriminate.
Defined.

(** ** More on alarm programming *)

(** X13: set_alarm asserts before it writes: when a supplied alarm field is
    outside its domain (minute 0..59, hour 0..23, day 1..31, weekday 1..7)
    the call raises AssertionError "invalid <field> <value>" for an
    offending field and the device is exactly as before the call; the alarm
    registers keep the previous alarm and the interrupt is not touched. *)
Theorem set_alarm_rejects_before_any_write
    (min hour day weekday : arg (option Z)) (self : PCF8523) :
  (∃ f x,
     f ∈ clock_fields None (or_default (Some 1) min) (or_default None hour)
           (or_default None day) None None (or_default None weekday)
     ∧ offends f x) →
  ∃ f x,
    f ∈ clock_fields None (or_default (Some 1) min) (or_default None hour)
          (or_default None day) None None (or_default None weekday)
    ∧ offends f x
    ∧ set_alarm min hour day weekday self
      = (Raise (AssertionError (invalid_message f x)), self).
Proof.
  intros (g & y & Hg & Hsup & Hout).
  rewrite set_alarm_run, assert_clock_inputs_checks.
  destruct (checks_spec
              (clock_fields None (or_default (Some 1) min) (or_default None hour)
                 (or_default None day) None None (or_default None weekday)))
    as [[_ Hall] | (f & x & Hf & Hx & ->)].
  - rewrite Forall_forall in Hall. destruct Hout. by apply (Hall g Hg).
  - by exists f, x.
Qed.

Lemma set_alarm_rejects_before_any_write_witness :
  ∃ f x,
    f ∈ clock_fields None (Some 15) (Some 24) None None None (Some 0)
    ∧ offends f x
    ∧ set_alarm (Passed (Some 15)) (Passed (Some 24)) Omitted (Passed (Some 0))
                seconds_0x7F
      = (Raise (AssertionError (invalid_message f x)), seconds_0x7F).
Proof.
  apply (set_alarm_rejects_before_any_write
           (Passed (Some 15)) (Passed (Some 24)) Omitted (Passed (Some 0)) seconds_0x7F).
  exists (mkField "weekday" 1 7 (Some 0)), 0.
  split; [unfold clock_fields; cbn [or_default]; set_solver|].
  split; [reflexivity | simpl; lia].
Defined.

Lemma alarm_byte_stored (v : option Z) (hi : Z) :
  int_to_bcd hi < 2 ^ 7 → (∀ x, v = Some x → 0 <= x <= hi) →
  alarm_field_stored (alarm_byte v) v.
Proof.
  intros Hhi Hv. destruct v as [x|]; cbn [alarm_field_stored alarm_byte]; [|done].
  specialize (Hv x eq_refl). pose proof (int_to_bcd_le x hi Hv) as Hle.
  change IGNORE_LAST_BIT with (Z.ones 7).
  rewrite !land_low_bits by lia.
  split; [done|]. split; [|apply bcd_to_int_int_to_bcd].
  rewrite <- (land_low_bits (int_to_bcd x) 7) by lia.
  rewrite Z.land_spec, Z.ones_spec_high by lia. apply andb_false_r.
Qed.

(** X14: when every supplied alarm field is in its domain, set_alarm returns
    and each alarm register holds its field: a supplied value x as
    int_to_bcd x, unchanged by the 0x7F mask, with bit 7 clear and decoding
    back to x; a field left out as the sentinel 0x80, bit 7 set.  Control
    register 1 gets bit 1 set, is_alarm_interrupt_enabled returns True, and
    no other register changes. *)
Theorem set_alarm_stores_fields
    (min hour day weekday : arg (option Z)) (self : PCF8523) :
  Forall in_domain
    (clock_fields None (or_default (Some 1) min) (or_default None hour)
       (or_default None day) None None (or_default None weekday)) →
  ∃ self',
    set_alarm min hour day weekday self = (Return tt, self')
    ∧ alarm_field_stored (peek self' Reg.ALARM_MINUTES) (or_default (Some 1) min)
    ∧ alarm_field_stored (peek self' Reg.ALARM_HOURS) (or_default None hour)
    ∧ alarm_field_stored (peek self' Reg.ALARM_DAY) (or_default None day)
    ∧ alarm_field_stored (peek self' Reg.ALARM_WEEKDAY) (or_default None weekday)
    ∧ (is_alarm_interrupt_enabled self').1 = Return true
    ∧ (∀ r, r ≠ Reg.CONTROL_1 → r ∉ alarm_registers → peek self' r = peek self r).
Proof.
  intros Hall.
  set (m := or_default (Some 1) min) in *. set (h := or_default None hour) in *.
  set (d := or_default None day) in *. set (w := or_default None weekday) in *.
  pose proof (in_domain_clock_fields _ _ _ _ _ _ _ Hall)
    as (_ & Hm & Hh & Hd & _ & _ & Hw).
  rewrite set_alarm_run. fold m h d w.
  rewrite (proj2 (proj1 (assert_clock_inputs_returns_cases None m h d None None w)) Hall).
  eexists. split; [reflexivity|].
  destruct (peek_alarm_programmed m h d w self) as (-> & -> & -> & -> & Hc).
  rewrite is_alarm_interrupt_enabled_run. cbn [fst]. rewrite Hc.
  split; [by apply (alarm_byte_stored m 59)|].
  split; [by apply (alarm_byte_stored h 23)|].
  split; [apply (alarm_byte_stored d 31); [done | intros x Hx; specialize (Hd x Hx); lia]|].
  split; [apply (alarm_byte_stored w 7); [done | intros x Hx; specialize (Hw x Hx); lia]|].
  split; [by rewrite lor_2_testbit, decide_True|].
  intros r Hr Hal. unfold alarm_registers in Hal. rewrite !not_elem_of_cons in Hal.
  destruct Hal as (? & ? & ? & ? & _).
  unfold alarm_programmed, peek; cbn [bus cells addr].
  by rewrite !lookup_insert_ne by congruence.
Qed.

Lemma set_alarm_stores_fields_witness :
  ∃ self',
    set_alarm (Passed None) (Passed (Some 7)) Omitted (Passed (Some 1)) seconds_0x7F
    = (Return tt, self')
    ∧ alarm_field_stored (peek self' Reg.ALARM_MINUTES) None
    ∧ alarm_field_stored (peek self' Reg.ALARM_HOURS) (Some 7)
    ∧ alarm_field_stored (peek self' Reg.ALARM_DAY) None
    ∧ alarm_field_stored (peek self' Reg.ALARM_WEEKDAY) (Some 1)
    ∧ (is_alarm_interrupt_enabled self').1 = Return true
    ∧ (∀ r, r ≠ Reg.CONTROL_1 → r ∉ alarm_registers → peek self' r = peek seconds_0x7F r).
Proof.
  apply (set_alarm_stores_fields
           (Passed None) (Passed (Some 7)) Omitted (Passed (Some 1)) seconds_0x7F).
  unfold clock_fields; cbn [or_default].
  repeat (constructor; [intros x [=]; subst; simpl; lia|]). constructor.
Defined.

(** ** Formatting the time *)

Ltac run_convert :=
  unfold read_str, read_datetime, write_datetime; run.

Lemma string_length_app (s1 s2 : string) :
  String.length (s1 +:+ s2) = (String.length s1 + String.length s2)%nat.
Proof. induction s1 as [|c s1 IH]; simpl; [done | by f_equal]. Qed.

Lemma format_02d_length (n : Z) : 0 <= n <= 99 → String.length (format_02d n) = 2%nat.
Proof.
  intros Hn.
  assert (Hall : Forall (λ k, String.length (format_02d k) = 2%nat) (seqZ 0 100)).
  { apply (bool_decide_unpack _). by vm_compute. }
  rewrite Forall_forall in Hall. apply Hall, elem_of_seqZ. lia.
Qed.

Lemma read_str_run (self : PCF8523) :
  read_str self
  = (Return (format_02d (bcd_to_int (peek self Reg.YEAR))
             +:+ "-" +:+ format_02d (bcd_to_int (Z.land (peek self Reg.MONTH) 0x1F))
             +:+ "-" +:+ format_02d (bcd_to_int (Z.land (peek self Reg.DAYS) 0x3F))
             +:+ " " +:+ format_02d (bcd_to_int (Z.land (peek self Reg.HOURS) 0x3F))
             +:+ ":" +:+ format_02d (bcd_to_int (Z.land (peek self Reg.MINUTES) IGNORE_LAST_BIT))
             +:+ ":" +:+ format_02d (bcd_to_int (Z.land (peek self Reg.SECONDS) IGNORE_LAST_BIT))),
     mkPCF8523
       (mkSMBus (cells (bus self))
                (wire (bus self)
                 ++ [ReadByte (addr self) Reg.YEAR; ReadByte (addr self) Reg.MONTH;
                     ReadByte (addr self) Reg.DAYS; ReadByte (addr self) Reg.HOURS;
                     ReadByte (addr self) Reg.MINUTES; ReadByte (addr self) Reg.SECONDS]))
       (addr self)).
Proof. run_convert. by rewrite <- !app_assoc. Qed.

(** X15: read_str changes no register and, when read_all returns
    (y, mo, d, wd, h, mi, s), returns the text y-mo-d h:mi:s, each number
    through {:02d}: year first, then month, then day of month, the weekday
    not shown.  When all six numbers are in 0..99, as they are when the
    registers hold encodings of field values, the text has exactly 17
    characters. *)
Theorem read_str_year_month_date (y mo d wd h mi s : Z) (self : PCF8523) :
  (read_all self).1 = Return (y, mo, d, wd, h, mi, s) →
  ∃ text,
    (read_str self).1 = Return text
    ∧ text = format_02d y +:+ "-" +:+ format_02d mo +:+ "-" +:+ format_02d d
             +:+ " " +:+ format_02d h +:+ ":" +:+ format_02d mi +:+ ":" +:+ format_02d s
    ∧ cells (bus (read_str self).2) = cells (bus self)
    ∧ (0 <= y <= 99 → 0 <= mo <= 99 → 0 <= d <= 99 → 0 <= h <= 99 →
       0 <= mi <= 99 → 0 <= s <= 99 → String.length text = 17%nat).
Proof.
  rewrite read_all_run, read_str_run. cbn [fst snd bus cells].
  intros [= <- <- <- <- <- <- <-].
  eexists. split; [reflexivity|]. split; [reflexivity|]. split; [reflexivity|].
  intros Hy Hmo Hd Hh Hmi Hs.
  rewrite !string_length_app, !format_02d_length by done. reflexivity.
Qed.

Lemma read_str_year_month_date_witness :
  ∃ text,
    (read_str seconds_0x7F).1 = Return text
    ∧ text = format_02d 0 +:+ "-" +:+ format_02d 0 +:+ "-" +:+ format_02d 0
             +:+ " " +:+ format_02d 0 +:+ ":" +:+ format_02d 0 +:+ ":" +:+ format_02d 85
    ∧ cells (bus (read_str seconds_0x7F).2) = cells (bus seconds_0x7F)
    ∧ (0 <= 0 <= 99 → 0 <= 0 <= 99 → 0 <= 0 <= 99 → 0 <= 0 <= 99 →
       0 <= 0 <= 99 → 0 <= 85 <= 99 → String.length text = 17%nat).
Proof.
  apply (read_str_year_month_date 0 0 0 0 0 0 85 seconds_0x7F). reflexivity.
Defined.

Example read_str_after_write_all :
  (read_str (write_all (Some 5) (Some 30) (Some 13) (Some 15) (Some 6) (Some 23)
                       (Some 4) fresh_device).2).1
  = Return "23-06-15 13:30:05".
Proof. reflexivity. Qed.

(** ** Converting to and from [datetime] *)

Lemma days_in_month_range (year month : Z) :
  1 <= month <= 12 → 28 <= days_in_month year month <= 31.
Proof.
  intros Hm. unfold days_in_month.
  assert (month = 1 ∨ month = 2 ∨ month = 3 ∨ month = 4 ∨ month = 5 ∨ month = 6
          ∨ month = 7 ∨ month = 8 ∨ month = 9 ∨ month = 10 ∨ month = 11
          ∨ month = 12) as Hcases by lia.
  destruct Hcases as [-> | [-> | [-> | [-> | [-> | [-> | [-> | [-> | [-> | [-> | [-> | ->]]]]]]]]]]];
    destruct (is_leap year); vm_compute; split; discriminate.
Qed.

Lemma isoweekday_range (dt : datetime) : 1 <= isoweekday dt <= 7.
Proof.
  unfold isoweekday. pose proof (Z.mod_pos_bound (toordinal dt) 7 ltac:(lia)).
  destruct (Z.eqb_spec (toordinal dt `mod` 7) 0); lia.
Qed.

Lemma datetime_new_built (year month day hour minute second microsecond : Z)
    (tzinfo : option tzinfo_obj) (dt : datetime) :
  datetime_new year month day hour minute second microsecond tzinfo = Built dt →
  dt = mkDatetime year month day hour minute second microsecond tzinfo
  ∧ 1 <= year <= 9999 ∧ 1 <= month <= 12 ∧ 1 <= day <= days_in_month year month
  ∧ 0 <= hour <= 23 ∧ 0 <= minute <= 59 ∧ 0 <= second <= 59
  ∧ 0 <= microsecond <= 999999.
Proof.
  unfold datetime_new.
  match goal with |- context [if ?c then _ else _] => destruct c eqn:Hc end; [|done].
  intros [= <-]. rewrite !andb_true_iff, !Z.leb_le in Hc. split; [done | lia].
Qed.

Lemma read_datetime_run (century : arg Z) (tzinfo : arg (option tzinfo_obj))
    (self : PCF8523) :
  (read_datetime century tzinfo self).1
  = Return (datetime_new
              ((or_default 21 century - 1) * 100 + bcd_to_int (peek self Reg.YEAR))
              (bcd_to_int (Z.land (peek self Reg.MONTH) 0x1F))
              (bcd_to_int (Z.land (peek self Reg.DAYS) 0x3F))
              (bcd_to_int (Z.land (peek self Reg.HOURS) 0x3F))
              (bcd_to_int (Z.land (peek self Reg.MINUTES) IGNORE_LAST_BIT))
              (bcd_to_int (Z.land (peek self Reg.SECONDS) IGNORE_LAST_BIT))
              0 (or_default None tzinfo)).
Proof. by run_convert. Qed.

Lemma write_datetime_read_all (year month day hour minute second microsecond : Z)
    (tzinfo : option tzinfo_obj) (dt : datetime) (self : PCF8523) :
  datetime_new year month day hour minute second microsecond tzinfo = Built dt →
  ∃ self',
    write_datetime dt self = (Return tt, self')
    ∧ (read_all self').1
      = Return (year `mod` 100, month, day, isoweekday dt, hour, minute, second).
Proof.
  intros Hdt.
  destruct (datetime_new_built _ _ _ _ _ _ _ _ _ Hdt)
    as (Heq & Hy & Hmo & Hd & Hh & Hmi & Hs & _).
  pose proof (days_in_month_range year month Hmo).
  pose proof (isoweekday_range dt).
  pose proof (Z.mod_pos_bound year 100 ltac:(lia)).
  unfold write_datetime.
  replace (dt_second dt) with second by (by rewrite Heq).
  replace (dt_minute dt) with minute by (by rewrite Heq).
  replace (dt_hour dt) with hour by (by rewrite Heq).
  replace (dt_day dt) with day by (by rewrite Heq).
  replace (dt_month dt) with month by (by rewrite Heq).
  replace (dt_year dt) with year by (by rewrite Heq).
  apply write_all_read_all; lia.
Qed.

(** X16: write_datetime never fails on a datetime: for every datetime the
    constructor builds, the seven values it passes to write_all pass the
    assertions (year % 100 is in 0..99, isoweekday() in 1..7), and read_all
    then returns (year % 100, month, day, isoweekday, hour, minute, second);
    the microsecond, the time zone and the century are not stored. *)
Theorem write_datetime_then_read_all
    (year month day hour minute second microsecond : Z)
    (tzinfo : option tzinfo_obj) (dt : datetime) (self : PCF8523) :
  datetime_new year month day hour minute second microsecond tzinfo = Built dt →
  ∃ self',
    write_datetime dt self = (Return tt, self')
    ∧ (read_all self').1
      = Return (year `mod` 100, month, day, isoweekday dt, hour, minute, second)
    ∧ 1 <= isoweekday dt <= 7.
Proof.
  intros Hdt.
  destruct (write_datetime_read_all _ _ _ _ _ _ _ _ _ self Hdt) as (self' & Hrun & Hread).
  exists self'. split; [done|]. split; [done | apply isoweekday_range].
Qed.

Lemma write_datetime_then_read_all_witness :
  ∃ self',
    write_datetime (mkDatetime 2023 6 15 13 30 45 123456 None) seconds_0x7F
    = (Return tt, self')
    ∧ (read_all self').1
      = Return (2023 `mod` 100, 6, 15,
                isoweekday (mkDatetime 2023 6 15 13 30 45 123456 None), 13, 30, 45)
    ∧ 1 <= isoweekday (mkDatetime 2023 6 15 13 30 45 123456 None) <= 7.
Proof.
  apply (write_datetime_then_read_all 2023 6 15 13 30 45 123456 None
           (mkDatetime 2023 6 15 13 30 45 123456 None) seconds_0x7F).
  reflexivity.
Defined.

(** X17: a datetime written with write_datetime comes back from
    read_datetime with the microsecond 0 and the time zone given to
    read_datetime, provided its year lies in the century passed (the 21st,
    2000..2099, by default).  In general read_datetime constructs the
    datetime of year (century - 1) * 100 + year % 100, which is a
    ValueError when that date does not exist. *)
Theorem write_datetime_then_read_datetime
    (year month day hour minute second microsecond : Z)
    (tzinfo : option tzinfo_obj) (dt : datetime) (self : PCF8523) :
  datetime_new year month day hour minute second microsecond tzinfo = Built dt →
  ∃ self',
    write_datetime dt self = (Return tt, self')
    ∧ (∀ century tz,
         (read_datetime century tz self').1
         = Return (datetime_new ((or_default 21 century - 1) * 100 + year `mod` 100)
                                month day hour minute second 0 (or_default None tz)))
    ∧ (∀ century tz,
         (or_default 21 century - 1) * 100 <= year < or_default 21 century * 100 →
         (read_datetime century tz self').1
         = Return (Built (mkDatetime year month day hour minute second 0
                                     (or_default None tz)))).
Proof.
  intros Hdt.
  destruct (write_datetime_read_all _ _ _ _ _ _ _ _ _ self Hdt) as (self' & Hrun & Hread).
  rewrite read_all_run in Hread. cbn [fst] in Hread.
  injection Hread as Hy Hmo Hd _ Hh Hmi Hs.
  exists self'. split; [done|].
  assert (Hgen : ∀ century tz,
            (read_datetime century tz self').1
            = Return (datetime_new ((or_default 21 century - 1) * 100 + year `mod` 100)
                                   month day hour minute second 0 (or_default None tz))).
  { intros century tz. by rewrite read_datetime_run, Hy, Hmo, Hd, Hh, Hmi, Hs. }
  split; [done|].
  intros century tz Hc. rewrite Hgen. f_equal.
  destruct (datetime_new_built _ _ _ _ _ _ _ _ _ Hdt)
    as (_ & Hyr & Hmor & Hdr & Hhr & Hmir & Hsr & _).
  replace ((or_default 21 century - 1) * 100 + year `mod` 100) with year by divmod.
  unfold datetime_new.
  match goal with |- context [if ?c then _ else _] =>
    replace c with true; [done|]
  end.
  symmetry. rewrite !andb_true_iff, !Z.leb_le. lia.
Qed.

Lemma write_datetime_then_read_datetime_witness :
  ∃ self',
    write_datetime (mkDatetime 2023 6 15 13 30 45 123456 None) seconds_0x7F
    = (Return tt, self')
    ∧ (∀ century tz,
         (read_datetime century tz self').1
         = Return (datetime_new ((or_default 21 century - 1) * 100 + 2023 `mod` 100)
                                6 15 13 30 45 0 (or_default None tz)))
    ∧ (∀ century tz,
         (or_default 21 century - 1) * 100 <= 2023 < or_default 21 century * 100 →
         (read_datetime century tz self').1
         = Return (Built (mkDatetime 2023 6 15 13 30 45 0 (or_default None tz)))).
Proof.
  apply (write_datetime_then_read_datetime 2023 6 15 13 30 45 123456 None
           (mkDatetime 2023 6 15 13 30 45 123456 None) seconds_0x7F).
  reflexivity.
Defined.

Example leap_day_read_in_another_century :
  (read_datetime (Passed 20) Omitted
     (write_datetime (mkDatetime 2000 2 29 0 0 0 0 None) fresh_device).2).1
  = Return ValueError.
Proof. reflexivity. Qed.



Example read_datetime_fresh_device :
  (read_datetime Omitted Omitted fresh_device).1 = Return ValueError.
Proof. reflexivity. Qed.
